(** * Whisper transcription GUI: the asynchronous job orchestrator

    A shallow embedding of [transcribe.py]: the start guard
    ([start_transcription]), the simulated progress ticker
    ([_progress_tick]) and the background worker ([_do_transcription])
    together with the status channel ([_set_status]).

    Modelling conventions.
    - Python [float] values (durations, the estimate, the progress
      percentage) are exact rationals [Q]; rounding, infinities and NaN are
      outside the model ([estimate_constants_binary64] checks the constants
      of the estimate in binary64).  [elapsed_ms] is a Python [int], hence
      [Z].
    - Every call that leaves the program (subprocesses, the file system,
      torch, whisper) is an oracle that either returns or raises; the
      exception carries the text [str(e)].
    - The worker runs on its own thread and reads the Tk variables when it
      reaches them.  The form it shares with the interactive thread is part
      of its state, and the user's edits are interleaved at its reads. *)

From Stdlib Require Import ZArith QArith String Ascii List Bool Lia Lqa.
From Stdlib Require Import DecimalString PrimFloat.
From stdpp Require Import gmap strings.

Import ListNotations.
Local Open Scope string_scope.
Local Open Scope Z_scope.

(* ================================================================== *)
(** ** Results of calls that may raise *)

Inductive result (A : Type) : Type :=
| Ok (a : A)
| Raise (e : string).
Arguments Ok {A} a.
Arguments Raise {A} e.

(* ================================================================== *)
(** ** Strings: [str.strip] and integer formatting *)

(** [str.isspace] on the ASCII range: TAB..CR, FS..US and the blank. *)
Definition isspace (c : ascii) : bool :=
  let n := nat_of_ascii c in
  ((9 <=? n)%nat && (n <=? 13)%nat) || ((28 <=? n)%nat && (n <=? 32)%nat).

Fixpoint lstrip (s : string) : string :=
  match s with
  | EmptyString => EmptyString
  | String c r => if isspace c then lstrip r else s
  end.

Fixpoint rstrip (s : string) : string :=
  match s with
  | EmptyString => EmptyString
  | String c r =>
      match rstrip r with
      | EmptyString => if isspace c then EmptyString else String c EmptyString
      | r' => String c r'
      end
  end.

Definition strip (s : string) : string := rstrip (lstrip s).

(** [str(n)] for an integer. *)
Definition str_of_int (n : Z) : string := NilZero.string_of_int (Z.to_int n).

(** [int(x)] of a float: truncation towards zero. *)
Definition int_of_float (x : Q) : Z := Z.quot (Qnum x) (Zpos (Qden x)).

(* ================================================================== *)
(** ** The form: the five Tk variables *)

Inductive Field : Type :=
| input_var | model_var | lang_var | device_var | output_var.

Record Form : Type := mkForm {
  f_input : string;
  f_model : string;
  f_lang : string;
  f_device : string;
  f_output : string
}.

Definition get (fld : Field) (f : Form) : string :=
  match fld with
  | input_var => f_input f
  | model_var => f_model f
  | lang_var => f_lang f
  | device_var => f_device f
  | output_var => f_output f
  end.

Definition set (fld : Field) (v : string) (f : Form) : Form :=
  match fld with
  | input_var => mkForm v (f_model f) (f_lang f) (f_device f) (f_output f)
  | model_var => mkForm (f_input f) v (f_lang f) (f_device f) (f_output f)
  | lang_var => mkForm (f_input f) (f_model f) v (f_device f) (f_output f)
  | device_var => mkForm (f_input f) (f_model f) (f_lang f) v (f_output f)
  | output_var => mkForm (f_input f) (f_model f) (f_lang f) (f_device f) v
  end.

(** The defaults of [_build_ui]. *)
Definition default_form : Form :=
  mkForm "" "large" "German" "cuda" "transcript_output.txt".

(** A user edit: a [StringVar.set] issued from the interactive thread. *)
Definition Edit : Type := (Field * string)%type.

Definition apply_edits (es : list Edit) (f : Form) : Form :=
  fold_left (fun acc e => set (fst e) (snd e) acc) es f.

(* ================================================================== *)
(** ** The worker thread *)

Module Worker.

(** What [whisper.load_model] hands back. *)
Record Model : Type := mkModel { m_name : string; m_device : string }.

(** The external calls of [_do_transcription], with their arguments. *)
Inductive Call : Type :=
| cuda_is_available_call
| set_num_threads_call (n : Z)
| load_model_call (name device : string)
| transcribe_call (m : Model) (input_path : string) (language : option string)
    (temperature : Q) (without_timestamps fp16 word_timestamps : bool)
| open_call (path mode encoding : string)
| write_call (path text : string).

(** The collaborators: torch, whisper and the output sink. *)
Record Engine : Type := mkEngine {
  cuda_is_available : result bool;
  set_num_threads : Z -> result unit;
  load_model : string -> string -> result Model;
  transcribe : Model -> string -> option string -> bool -> result string;
  fs_open : string -> result unit;
  fs_write : string -> string -> result unit
}.

(** The part of the world the worker touches.  [vars] is the form shared
    with the interactive thread; [edits] holds, for each future read of a
    Tk variable, the edits the user makes before that read; [after0] is the
    queue of [self.after(0, _update)] callbacks, oldest first. *)
Record World : Type := mkWorld {
  vars : Form;
  edits : list (list Edit);
  after0 : list string;
  calls : list Call;
  files : gmap string string
}.

Definition W (A : Type) : Type := World -> result A * World.

Definition ret {A} (a : A) : W A := fun w => (Ok a, w).

Definition bind {A B} (m : W A) (k : A -> W B) : W B :=
  fun w => match m w with
           | (Ok a, w') => k a w'
           | (Raise e, w') => (Raise e, w')
           end.

(** [try: body except Exception as e: handler e]. *)
Definition try_except {A} (body : W A) (handler : string -> W A) : W A :=
  fun w => match body w with
           | (Ok a, w') => (Ok a, w')
           | (Raise e, w') => handler e w'
           end.

Notation "x <- m ;; k" := (bind m (fun x => k))
  (at level 100, m at next level, right associativity).
Notation "m ;;; k" := (bind m (fun _ => k))
  (at level 100, right associativity).

(** [var.get()]: the edits made since the previous read have landed. *)
Definition var_get (fld : Field) : W string :=
  fun w =>
    let f := apply_edits (hd [] (edits w)) (vars w) in
    (Ok (get fld f),
     mkWorld f (tl (edits w)) (after0 w) (calls w) (files w)).

(** [_set_status msg]: schedule the update on the interactive thread. *)
Definition _set_status (msg : string) : W unit :=
  fun w => (Ok tt,
            mkWorld (vars w) (edits w) (after0 w ++ [msg]) (calls w) (files w)).

(** An external call: logged, then answered by the collaborator. *)
Definition call {A} (c : Call) (r : result A) : W A :=
  fun w => (r, mkWorld (vars w) (edits w) (after0 w) (calls w ++ [c]) (files w)).

Definition set_file (path text : string) : W unit :=
  fun w => (Ok tt,
            mkWorld (vars w) (edits w) (after0 w) (calls w)
                    (<[path := text]> (files w))).

(** [with open(output_path, "w", encoding="utf-8") as f: f.write(text)] *)
Definition write_output (eng : Engine) (output_path text : string) : W unit :=
  call (open_call output_path "w" "utf-8") (fs_open eng output_path) ;;;
  set_file output_path "" ;;;
  call (write_call output_path text) (fs_write eng output_path text) ;;;
  set_file output_path text.

Definition _do_transcription_body (eng : Engine) : W unit :=
  device0 <- var_get device_var ;;
  device <- (if String.eqb device0 "cuda" then
               avail <- call cuda_is_available_call (cuda_is_available eng) ;;
               if negb avail then
                 _set_status "CUDA not available, using CPU." ;;;
                 ret "cpu"
               else ret device0
             else ret device0) ;;
  call (set_num_threads_call 12) (set_num_threads eng 12) ;;;
  model_name <- var_get model_var ;;
  _set_status ("Loading model '" ++ model_name ++ "' ...") ;;;
  model <- call (load_model_call model_name device)
                (load_model eng model_name device) ;;
  _set_status "Transcribing ..." ;;;
  input_raw <- var_get input_var ;;
  let input_path := strip input_raw in
  language0 <- var_get lang_var ;;
  let language := if String.eqb language0 "Auto" then None else Some language0 in
  let fp16 := String.eqb device "cuda" in
  text <- call (transcribe_call model input_path language 0%Q false fp16 true)
               (transcribe eng model input_path language fp16) ;;
  output_raw <- var_get output_var ;;
  let output_path := strip output_raw in
  write_output eng output_path text ;;;
  _set_status ("Done. Transcript saved to: " ++ output_path).

Definition _do_transcription (eng : Engine) : W unit :=
  try_except (_do_transcription_body eng)
             (fun e => _set_status ("Error: " ++ e)).

(** The two kinds of terminal status. *)
Definition is_done (msg : string) : bool :=
  String.prefix "Done. Transcript saved to: " msg.
Definition is_error (msg : string) : bool := String.prefix "Error: " msg.
Definition is_terminal (msg : string) : bool := is_done msg || is_error msg.

(** The form as the worker gets to see it: each field with the value it
    has at the worker's read of it (device, model, input, language and
    output, in this order), the user's edits landing in between. *)
Definition seen (f : Form) (sched : list (list Edit)) : Form :=
  let f1 := apply_edits (hd [] sched) f in
  let f2 := apply_edits (hd [] (tl sched)) f1 in
  let f3 := apply_edits (hd [] (tl (tl sched))) f2 in
  let f4 := apply_edits (hd [] (tl (tl (tl sched)))) f3 in
  let f5 := apply_edits (hd [] (tl (tl (tl (tl sched))))) f4 in
  mkForm (f_input f3) (f_model f2) (f_lang f4) (f_device f1) (f_output f5).

(** What a run leaves behind, the shared form aside. *)
Definition outcome (r : result unit * World)
  : result unit * list string * list Call * gmap string string :=
  (fst r, after0 (snd r), calls (snd r), files (snd r)).

(** [e] is the text of an exception raised by one of the collaborators. *)
Definition raised_after_device (eng : Engine) (e : string) : Prop :=
  set_num_threads eng 12 = Raise e \/
  (exists name device, load_model eng name device = Raise e) \/
  (exists m path lang fp16, transcribe eng m path lang fp16 = Raise e) \/
  (exists path, fs_open eng path = Raise e) \/
  (exists path text, fs_write eng path text = Raise e).

Definition raised_by (eng : Engine) (e : string) : Prop :=
  cuda_is_available eng = Raise e \/ raised_after_device eng e.

(** Sample collaborators: no CUDA, everything else works. *)
Definition eng_cpu : Engine :=
  mkEngine (Ok false) (fun _ => Ok tt) (fun n d => Ok (mkModel n d))
           (fun _ _ _ _ => Ok "hello") (fun _ => Ok tt) (fun _ _ => Ok tt).

(** The engine fails in the middle of the transcription. *)
Definition eng_engine_fault : Engine :=
  mkEngine (Ok true) (fun _ => Ok tt) (fun n d => Ok (mkModel n d))
           (fun _ _ _ _ => Raise "out of memory") (fun _ => Ok tt)
           (fun _ _ => Ok tt).

Definition talk_form : Form := set input_var "talk.mp4" default_form.

(** The user retargets input and output while the model is loading. *)
Definition late_edits : list (list Edit) :=
  [[]; []; [(input_var, "other.mp4")]; []; [(output_var, "other.txt")]].

(** The answer of the collaborator behind a logged call, its value
    forgotten. *)
Definition forget {A} (r : result A) : result unit :=
  match r with
  | Ok _ => Ok tt
  | Raise e => Raise e
  end.

Definition answer (eng : Engine) (c : Call) : result unit :=
  match c with
  | cuda_is_available_call => forget (cuda_is_available eng)
  | set_num_threads_call n => forget (set_num_threads eng n)
  | load_model_call name device => forget (load_model eng name device)
  | transcribe_call m path lang _ _ fp16 _ =>
      forget (transcribe eng m path lang fp16)
  | open_call path _ _ => forget (fs_open eng path)
  | write_call path text => forget (fs_write eng path text)
  end.

(** A job on its own: the worker run from a fresh queue and call log. *)
Definition job (eng : Engine) (f : Form) (sched : list (list Edit))
    (fs : gmap string string) : result unit * World :=
  _do_transcription eng (mkWorld f sched [] [] fs).

(** CUDA present, the output location cannot be opened. *)
Definition eng_readonly : Engine :=
  mkEngine (Ok true) (fun _ => Ok tt) (fun n d => Ok (mkModel n d))
           (fun _ _ _ _ => Ok "hello") (fun _ => Raise "Permission denied")
           (fun _ _ => Ok tt).

End Worker.

(* ================================================================== *)
(** ** The interactive thread *)

Module GUI.

Local Open Scope Q_scope.

(** [min(a, b)] and [max(a, b)] of Python: the first argument wins ties. *)
Definition py_min (a b : Q) : Q := if Qlt_le_dec b a then b else a.
Definition py_max (a b : Q) : Q := if Qlt_le_dec a b then b else a.

(** A modal dialog of [tkinter.messagebox]. *)
Inductive Dialog : Type :=
| showerror (title message : string)
| showinfo (title message : string).

(** What the environment answers when the Start button is pressed:
    [os.path.exists], the [ffmpeg -version] subprocess, and the body of
    [get_media_duration]'s [try] (the ffprobe subprocess and [float]). *)
Record Probes : Type := mkProbes {
  path_exists : string -> bool;
  ffmpeg_version : result unit;
  ffprobe : string -> result Q
}.

Definition ffmpeg_available (env : Probes) : bool :=
  match ffmpeg_version env with
  | Ok _ => true
  | Raise _ => false
  end.

Definition get_media_duration (env : Probes) (path : string) : Q :=
  match ffprobe env path with
  | Ok d => d
  | Raise _ => 0
  end.

(** The application object.  [worker_thread] is [None] or a thread whose
    [is_alive()] is the boolean.  The last three fields record effects:
    the dialogs shown, the number of [Thread.start()] calls, and the
    [self.after(200, self._progress_tick)] timers not yet fired. *)
Record WhisperGUI : Type := mkGUI {
  form : Form;
  worker_thread : option bool;
  estimated_seconds : Q;
  elapsed_ms : Z;
  progress : Q;
  status_var : string;
  dialogs : list Dialog;
  threads_started : nat;
  ticks_scheduled : nat
}.

(** [__init__] and [_build_ui]. *)
Definition init : WhisperGUI :=
  mkGUI default_form None 0 0%Z 0 "Ready." [] 0%nat 0%nat.

(** [self.worker_thread and self.worker_thread.is_alive()] *)
Definition job_alive (g : WhisperGUI) : bool :=
  match worker_thread g with
  | Some alive => alive
  | None => false
  end.

Definition show (d : Dialog) (g : WhisperGUI) : WhisperGUI :=
  mkGUI (form g) (worker_thread g) (estimated_seconds g) (elapsed_ms g)
        (progress g) (status_var g) (dialogs g ++ [d])
        (threads_started g) (ticks_scheduled g).

Definition newline : string := String (ascii_of_nat 10) EmptyString.

Definition invalid_input_dialog : Dialog :=
  showerror "Error" "Please select a valid input file.".
Definition ffmpeg_missing_dialog : Dialog :=
  showerror "ffmpeg not found"
    ("ffmpeg could not be executed." ++ newline ++
     "Please adjust FFMPEG_DIR at the top of the script.").
Definition already_running_dialog : Dialog :=
  showinfo "Info" "Transcription is already running.".

Definition start_transcription (env : Probes) (g : WhisperGUI) : WhisperGUI :=
  let input_path := strip (f_input (form g)) in
  if String.eqb input_path "" || negb (path_exists env input_path) then
    show invalid_input_dialog g
  else if negb (ffmpeg_available env) then
    show ffmpeg_missing_dialog g
  else if job_alive g then
    show already_running_dialog g
  else
    let duration_sec := get_media_duration env input_path in
    let duration_sec := if Qle_bool duration_sec 0 then 60 else duration_sec in
    mkGUI (form g) (Some true) (duration_sec * 1.2) 0%Z 0
          "Loading model and starting transcription ..."
          (dialogs g) (S (threads_started g)) (S (ticks_scheduled g)).

(** [_progress_tick].  The division raises [ZeroDivisionError] on a zero
    denominator; [elapsed_ms] has been incremented by then. *)
Definition _progress_tick (g : WhisperGUI) : result unit * WhisperGUI :=
  if job_alive g then
    let elapsed := (elapsed_ms g + 200)%Z in
    let denom := estimated_seconds g * 1000 in
    if Qeq_bool denom 0 then
      (Raise "float division by zero",
       mkGUI (form g) (worker_thread g) (estimated_seconds g) elapsed
             (progress g) (status_var g) (dialogs g)
             (threads_started g) (ticks_scheduled g))
    else
      let pct := (inject_Z elapsed / denom) * 100 in
      let pct := py_min pct 98 in
      let remaining :=
        py_max 0 ((estimated_seconds g * 1000 - inject_Z elapsed) / 1000) in
      (Ok tt,
       mkGUI (form g) (worker_thread g) (estimated_seconds g) elapsed
             pct
             ("Running ... estimated ~" ++ str_of_int (int_of_float remaining)
                ++ " s remaining")
             (dialogs g) (threads_started g) (S (ticks_scheduled g)))
  else
    (Ok tt,
     mkGUI (form g) (worker_thread g) (estimated_seconds g) (elapsed_ms g)
           100 (status_var g) (dialogs g)
           (threads_started g) (ticks_scheduled g)).

(** What happens on the interactive thread, one event at a time. *)
Inductive Event : Type :=
| click_start (env : Probes)          (* the Start button *)
| timer_tick                          (* a 200 ms timer fires *)
| worker_exit                         (* the worker thread has returned *)
| user_edit (fld : Field) (v : string)  (* an entry or combobox is changed *)
| status_update (msg : string).       (* an [after(0, _update)] callback *)

(** One event. [None]: the event cannot happen in [g] (no timer pending,
    no live thread), or its handler raised. *)
Definition step (e : Event) (g : WhisperGUI) : option WhisperGUI :=
  match e with
  | click_start env => Some (start_transcription env g)
  | timer_tick =>
      match ticks_scheduled g with
      | O => None
      | S n =>
          match _progress_tick
                  (mkGUI (form g) (worker_thread g) (estimated_seconds g)
                         (elapsed_ms g) (progress g) (status_var g)
                         (dialogs g) (threads_started g) n) with
          | (Ok _, g') => Some g'
          | (Raise _, _) => None
          end
      end
  | worker_exit =>
      match worker_thread g with
      | Some true =>
          Some (mkGUI (form g) (Some false) (estimated_seconds g)
                      (elapsed_ms g) (progress g) (status_var g)
                      (dialogs g) (threads_started g) (ticks_scheduled g))
      | _ => None
      end
  | user_edit fld v =>
      Some (mkGUI (set fld v (form g)) (worker_thread g)
                  (estimated_seconds g) (elapsed_ms g) (progress g)
                  (status_var g) (dialogs g) (threads_started g)
                  (ticks_scheduled g))
  | status_update msg =>
      Some (mkGUI (form g) (worker_thread g) (estimated_seconds g)
                  (elapsed_ms g) (progress g) msg (dialogs g)
                  (threads_started g) (ticks_scheduled g))
  end.

Fixpoint run (evs : list Event) (g : WhisperGUI) : option WhisperGUI :=
  match evs with
  | [] => Some g
  | e :: evs' =>
      match step e g with
      | Some g' => run evs' g'
      | None => None
      end
  end.

(** The states the application can be in. *)
Definition reachable (g : WhisperGUI) : Prop :=
  exists evs, run evs init = Some g.

(** The raw percentage computed by [_progress_tick]. *)
Definition pct (est : Q) (elapsed : Z) : Q :=
  inject_Z elapsed / (est * 1000) * 100.

(** What holds in every reachable state. *)
Record Inv (g : WhisperGUI) : Prop := mkInv {
  inv_elapsed : (0 <= elapsed_ms g)%Z;
  inv_range : 0 <= progress g <= 100;
  inv_timer : (0 < ticks_scheduled g)%nat -> worker_thread g <> None;
  inv_estimate :
    worker_thread g <> None ->
    exists d, 0 < d /\ estimated_seconds g = d * 1.2;
  inv_alive :
    job_alive g = true ->
    progress g <= py_min (pct (estimated_seconds g) (elapsed_ms g)) 98
}.

(** Sample data: a 30 s recording, all tools present. *)
Definition env30 : Probes :=
  mkProbes (fun _ => true) (Ok tt) (fun _ => Ok 30).

(** A half-second clip. *)
Definition env_half : Probes :=
  mkProbes (fun _ => true) (Ok tt) (fun _ => Ok (1 # 2)).

(** No file anywhere. *)
Definition env_nofile : Probes :=
  mkProbes (fun _ => false) (Ok tt) (fun _ => Raise "No such file").

Definition g_ready : WhisperGUI :=
  mkGUI (set input_var "talk.mp4" default_form) None 0 0%Z 0 "Ready."
        [] 0%nat 0%nat.

Definition g_running : WhisperGUI := start_transcription env30 g_ready.

Definition g_finished : WhisperGUI :=
  mkGUI (form g_running) (Some false) (estimated_seconds g_running)
        (elapsed_ms g_running) (progress g_running) (status_var g_running)
        (dialogs g_running) (threads_started g_running)
        (ticks_scheduled g_running).

(** The application with another content of the entries. *)
Definition with_form (f : Form) (g : WhisperGUI) : WhisperGUI :=
  mkGUI f (worker_thread g) (estimated_seconds g) (elapsed_ms g)
        (progress g) (status_var g) (dialogs g) (threads_started g)
        (ticks_scheduled g).

(** [select_file].  [filename] is the answer of [askopenfilename], the
    empty string when the dialog is cancelled. *)
Definition select_file (filename : string) (g : WhisperGUI) : WhisperGUI :=
  if String.eqb filename "" then g
  else with_form (set input_var filename (form g)) g.

(** [self.output_var.get().strip() or "transcript_output.txt"] *)
Definition initialfile (g : WhisperGUI) : string :=
  let s := strip (f_output (form g)) in
  if String.eqb s "" then "transcript_output.txt" else s.

(** [select_output_file].  [asksaveasfilename] answers as a function of the
    [initialfile] it is offered, with the empty string for a cancel. *)
Definition select_output_file (asksaveasfilename : string -> string)
    (g : WhisperGUI) : WhisperGUI :=
  let initial := initialfile g in
  let filename := asksaveasfilename initial in
  if String.eqb filename "" then g
  else with_form (set output_var filename (form g)) g.

(** The polling loop and the threads: what holds in every reachable
    state besides [Inv]. *)
Record Polling (g : WhisperGUI) : Prop := mkPolling {
  poll_alive : job_alive g = true -> (0 < ticks_scheduled g)%nat;
  poll_bound : (ticks_scheduled g <= threads_started g)%nat;
  poll_thread : worker_thread g = None <-> threads_started g = 0%nat
}.

(** Timer ticks and status callbacks, the events of a job in flight. *)
Definition in_flight_event (e : Event) : bool :=
  match e with
  | timer_tick | status_update _ => true
  | _ => false
  end.

(** The state of the worker a job is spawned with: it shares the form. *)
Definition spawn_world (g : WhisperGUI) (sched : list (list Edit))
    (fs : gmap string string) : Worker.World :=
  Worker.mkWorld (form g) sched [] [] fs.

End GUI.

(* ================================================================== *)
(** ** Start-up: the ffmpeg directory *)

Module Startup.

Definition FFMPEG_DIR : string := "C:\ffmpeg\bin".

(** The statements run at import:
    [if os.path.isdir(FFMPEG_DIR): os.environ["PATH"] += os.pathsep + FFMPEG_DIR].
    [environ] is [os.environ]; reading a variable that is not set raises
    [KeyError], whose text is the quoted key. *)
Definition configure_ffmpeg (isdir : string -> bool) (pathsep : string)
    (environ : gmap string string) : result (gmap string string) :=
  if isdir FFMPEG_DIR then
    match environ !! "PATH" with
    | Some path => Ok (<["PATH" := path ++ pathsep ++ FFMPEG_DIR]> environ)
    | None => Raise "'PATH'"
    end
  else Ok environ.

End Startup.

(* ================================================================== *)
(** * Properties of the interactive thread *)

Section Controller.

Import GUI.
Local Open Scope Q_scope.

(** ** Arithmetic of the estimate *)

Lemma Qle_bool_false (x y : Q) : Qle_bool x y = false -> y < x.
Proof.
  intros E. apply Qnot_le_lt. intros H.
  apply Qle_bool_iff in H. congruence.
Qed.

Lemma py_min_le_cap (a b : Q) : py_min a b <= b.
Proof. unfold py_min. destruct (Qlt_le_dec b a); lra. Qed.

Lemma py_min_mono (a a' b : Q) : a <= a' -> py_min a b <= py_min a' b.
Proof. unfold py_min. intros H. do 2 destruct Qlt_le_dec; lra. Qed.

Lemma py_max_nonneg (x : Q) : 0 <= py_max 0 x.
Proof. unfold py_max. destruct (Qlt_le_dec 0 x); lra. Qed.

Lemma py_max_clamped (x : Q) : x <= 0 -> py_max 0 x = 0.
Proof. unfold py_max. intros H. destruct (Qlt_le_dec 0 x); [lra | reflexivity]. Qed.

Lemma int_of_float_nonneg (x : Q) : 0 <= x -> (0 <= int_of_float x)%Z.
Proof.
  unfold int_of_float, Qle. cbn [Qnum Qden]. intros H.
  apply Z.quot_pos; lia.
Qed.

Lemma pct_mono (est : Q) (e e' : Z) :
  0 < est -> (e <= e')%Z -> pct est e <= pct est e'.
Proof.
  intros Hest Hle. unfold pct, Qdiv.
  assert (0 < / (est * 1000)) by (apply Qinv_lt_0_compat; lra).
  rewrite Zle_Qle in Hle. nra.
Qed.

(** ** The start guard *)

Lemma start_rejected (env : Probes) (g : WhisperGUI) :
  job_alive g = true -> exists d, start_transcription env g = show d g.
Proof.
  intros Halive. unfold start_transcription.
  destruct (_ || _); [eauto |].
  destruct (negb _); [eauto |].
  rewrite Halive. eauto.
Qed.

Lemma start_accepted (env : Probes) (g : WhisperGUI) :
  strip (f_input (form g)) <> "" ->
  path_exists env (strip (f_input (form g))) = true ->
  ffmpeg_available env = true ->
  job_alive g = false ->
  start_transcription env g =
    mkGUI (form g) (Some true)
      ((if Qle_bool (get_media_duration env (strip (f_input (form g)))) 0
        then 60 else get_media_duration env (strip (f_input (form g)))) * 1.2)
      0%Z 0 "Loading model and starting transcription ..."
      (dialogs g) (S (threads_started g)) (S (ticks_scheduled g)).
Proof.
  intros Hne Hex Hff Halive. unfold start_transcription.
  apply String.eqb_neq in Hne. rewrite Hne, Hex, Hff, Halive. reflexivity.
Qed.

(** The Start button never writes the form: the worker it spawns shares
    the entries as the user left them. *)
Lemma start_keeps_form (env : Probes) (g : WhisperGUI) :
  form (start_transcription env g) = form g.
Proof.
  unfold start_transcription.
  destruct (_ || _); [reflexivity |].
  destruct (negb _); [reflexivity |].
  destruct (job_alive g); reflexivity.
Qed.

(** Either a dialog and nothing else, or a fresh job. *)
Lemma start_cases (env : Probes) (g : WhisperGUI) :
  (exists d, start_transcription env g = show d g) \/
  (job_alive g = false /\
   exists d, 0 < d /\
     start_transcription env g =
       mkGUI (form g) (Some true) (d * 1.2) 0%Z 0
         "Loading model and starting transcription ..."
         (dialogs g) (S (threads_started g)) (S (ticks_scheduled g))).
Proof.
  unfold start_transcription.
  destruct (_ || _); [eauto |].
  destruct (negb _); [eauto |].
  destruct (job_alive g); [eauto |].
  right. split; [reflexivity |].
  destruct (Qle_bool _ 0) eqn:E.
  - exists 60. split; [lra | reflexivity].
  - eexists. split; [apply (Qle_bool_false _ _ E) | reflexivity].
Qed.

(** ** The invariant of the application *)

Lemma Inv_init : Inv init.
Proof.
  constructor; cbn; try lra; try lia; try congruence.
Qed.

Lemma Inv_estimate_pos (g : WhisperGUI) :
  Inv g -> job_alive g = true -> 0 < estimated_seconds g.
Proof.
  intros HI Halive.
  destruct (inv_estimate g HI) as (d & Hd & ->); [| lra].
  unfold job_alive in Halive. destruct (worker_thread g); congruence.
Qed.

(** On a live job the tick returns, and this is what it computes. *)
Lemma tick_alive (g : WhisperGUI) :
  job_alive g = true -> 0 < estimated_seconds g ->
  _progress_tick g =
    (Ok tt,
     mkGUI (form g) (worker_thread g) (estimated_seconds g)
       (elapsed_ms g + 200)%Z
       (py_min (pct (estimated_seconds g) (elapsed_ms g + 200)) 98)
       ("Running ... estimated ~" ++
          str_of_int (int_of_float
            (py_max 0 ((estimated_seconds g * 1000
                        - inject_Z (elapsed_ms g + 200)) / 1000)))
          ++ " s remaining")
       (dialogs g) (threads_started g) (S (ticks_scheduled g))).
Proof.
  intros Halive Hpos. unfold _progress_tick. rewrite Halive.
  destruct (Qeq_bool _ 0) eqn:E; [| reflexivity].
  apply Qeq_bool_eq in E. lra.
Qed.

Lemma tick_dead (g : WhisperGUI) :
  job_alive g = false ->
  _progress_tick g =
    (Ok tt,
     mkGUI (form g) (worker_thread g) (estimated_seconds g) (elapsed_ms g)
       100 (status_var g) (dialogs g) (threads_started g) (ticks_scheduled g)).
Proof. intros Halive. unfold _progress_tick. rewrite Halive. reflexivity. Qed.

Lemma Inv_start (env : Probes) (g : WhisperGUI) :
  Inv g -> Inv (start_transcription env g).
Proof.
  intros HI. destruct (start_cases env g) as [[d ->] | (_ & d & Hd & ->)].
  - destruct HI. constructor; assumption.
  - destruct HI. constructor; cbn; try lra; try lia; try congruence.
    + intros _. exists d. split; [exact Hd | reflexivity].
    + intros _. apply Qle_trans with (py_min (pct (d * 1.2) 0) 98).
      * unfold py_min, pct. destruct Qlt_le_dec; [lra |].
        unfold Qdiv. rewrite Qmult_0_l. rewrite Qmult_0_l. lra.
      * lra.
Qed.

Lemma Inv_tick (g g' : WhisperGUI) :
  Inv g -> step timer_tick g = Some g' -> Inv g'.
Proof.
  intros HI Hstep. cbn in Hstep.
  destruct (ticks_scheduled g) as [| n] eqn:Hn; [discriminate |].
  assert (Hthread : worker_thread g <> None)
    by (apply (inv_timer g HI); lia).
  set (g1 := mkGUI _ _ _ _ _ _ _ _ n) in Hstep.
  destruct (job_alive g) eqn:Halive.
  - pose proof (Inv_estimate_pos g HI Halive) as Hpos.
    rewrite (tick_alive g1 Halive Hpos) in Hstep. injection Hstep as <-.
    destruct HI. constructor; cbn.
    + lia.
    + split.
      * apply Qle_trans with (progress g); [lra |].
        apply Qle_trans with (1 := inv_alive0 Halive).
        apply py_min_mono, pct_mono; [exact Hpos | lia].
      * apply Qle_trans with 98; [apply py_min_le_cap | lra].
    + intros _. exact Hthread.
    + exact inv_estimate0.
    + intros _. lra.
  - rewrite (tick_dead g1 Halive) in Hstep. injection Hstep as <-.
    destruct HI. constructor; cbn.
    + exact inv_elapsed0.
    + lra.
    + intros _. exact Hthread.
    + exact inv_estimate0.
    + intros H. change (job_alive g = true) in H. congruence.
Qed.

Lemma Inv_step (e : Event) (g g' : WhisperGUI) :
  Inv g -> step e g = Some g' -> Inv g'.
Proof.
  intros HI Hstep. destruct e.
  - injection Hstep as <-. apply Inv_start, HI.
  - eapply Inv_tick; eassumption.
  - cbn in Hstep. destruct (worker_thread g) as [[|] |] eqn:Hw; try discriminate.
    injection Hstep as <-. destruct HI.
    constructor; cbn; try assumption; try congruence.
    intros _. apply inv_estimate0. congruence.
  - injection Hstep as <-. destruct HI. constructor; assumption.
  - injection Hstep as <-. destruct HI. constructor; assumption.
Qed.

Lemma Inv_run (evs : list Event) (g g' : WhisperGUI) :
  Inv g -> run evs g = Some g' -> Inv g'.
Proof.
  revert g. induction evs as [| e evs IH]; intros g HI Hrun; cbn in Hrun.
  - injection Hrun as <-. exact HI.
  - destruct (step e g) as [g1 |] eqn:Hstep; [| discriminate].
    eapply IH; [eapply Inv_step |]; eassumption.
Qed.

Lemma reachable_Inv (g : WhisperGUI) : reachable g -> Inv g.
Proof. intros [evs Hrun]. eapply Inv_run; [apply Inv_init | exact Hrun]. Qed.

Lemma reachable_ready : reachable g_ready.
Proof. exists [user_edit input_var "talk.mp4"]. reflexivity. Qed.

Lemma reachable_running : reachable g_running.
Proof.
  exists [user_edit input_var "talk.mp4"; click_start env30]. reflexivity.
Qed.

Lemma reachable_finished : reachable g_finished.
Proof.
  exists [user_edit input_var "talk.mp4"; click_start env30; worker_exit].
  reflexivity.
Qed.

(** A non-negative integer prints without a sign. *)
Lemma str_of_int_unsigned (n : Z) :
  (0 <= n)%Z -> String.prefix "-" (str_of_int n) = false.
Proof.
  intros Hn. unfold str_of_int.
  destruct n as [| p | p]; [reflexivity | | lia].
  cbn [Z.to_int NilZero.string_of_int].
  destruct (Pos.to_uint p); reflexivity.
Qed.

(** An event that starts no job never lowers the progress value. *)
Lemma step_progress_mono (e : Event) (g g' : WhisperGUI) :
  Inv g -> step e g = Some g' ->
  threads_started g' = threads_started g ->
  progress g <= progress g'.
Proof.
  intros HI Hstep Hsame. destruct e.
  - injection Hstep as <-.
    destruct (start_cases env g) as [[d Hd] | (_ & d & _ & Hd)];
      rewrite Hd in *; cbn in *; [lra | lia].
  - pose proof (Inv_tick g g' HI Hstep) as HI'.
    cbn in Hstep. destruct (ticks_scheduled g) as [| n]; [discriminate |].
    set (g1 := mkGUI _ _ _ _ _ _ _ _ n) in Hstep.
    destruct (job_alive g) eqn:Halive.
    + pose proof (Inv_estimate_pos g HI Halive) as Hpos.
      rewrite (tick_alive g1 Halive Hpos) in Hstep. injection Hstep as <-.
      cbn. apply Qle_trans with (1 := inv_alive g HI Halive).
      apply py_min_mono, pct_mono; [exact Hpos | lia].
    + rewrite (tick_dead g1 Halive) in Hstep. injection Hstep as <-.
      cbn. apply (inv_range g HI).
  - cbn in Hstep. destruct (worker_thread g) as [[|] |]; try discriminate.
    injection Hstep as <-. cbn. lra.
  - injection Hstep as <-. cbn. lra.
  - injection Hstep as <-. cbn. lra.
Qed.

(** ** The single-flight guard *)

(** C2, as stated, fails: with a job alive and the input entry cleared,
    pressing Start shows the error dialog of the first guard, not the
    informational one. *)
Lemma start_while_alive_shows_error :
  let g := mkGUI (set input_var "" (form g_running)) (worker_thread g_running)
             (estimated_seconds g_running) (elapsed_ms g_running)
             (progress g_running) (status_var g_running) (dialogs g_running)
             (threads_started g_running) (ticks_scheduled g_running) in
  reachable g /\ job_alive g = true /\
  dialogs (start_transcription env30 g) =
    [showerror "Error" "Please select a valid input file."].
Proof.
  cbv zeta. split; [| split; reflexivity].
  exists [user_edit input_var "talk.mp4"; click_start env30;
          user_edit input_var ""].
  reflexivity.
Qed.

(** C2 (amended): with a job alive, Start only shows a dialog and changes
    nothing else.  The dialog is the informational "already running" one
    when the input path is valid and ffmpeg answers; the two precondition
    guards come first and show their error dialogs otherwise. *)
Theorem start_while_alive_only_shows_dialog (env : Probes) (g : WhisperGUI) :
  job_alive g = true ->
  let input_path := strip (f_input (form g)) in
  (input_path = "" \/ path_exists env input_path = false ->
   start_transcription env g = show invalid_input_dialog g) /\
  (input_path <> "" -> path_exists env input_path = true ->
   ffmpeg_available env = false ->
   start_transcription env g = show ffmpeg_missing_dialog g) /\
  (input_path <> "" -> path_exists env input_path = true ->
   ffmpeg_available env = true ->
   start_transcription env g =
     show (showinfo "Info" "Transcription is already running.") g).
Proof.
  intros Halive input_path. subst input_path. unfold start_transcription.
  repeat split.
  - intros [-> | ->]; [reflexivity |]. rewrite orb_true_r. reflexivity.
  - intros Hne -> ->. apply String.eqb_neq in Hne. rewrite Hne. reflexivity.
  - intros Hne -> ->. apply String.eqb_neq in Hne. rewrite Hne, Halive.
    reflexivity.
Qed.

Lemma start_while_alive_only_shows_dialog_witness :
  start_transcription env30 g_running =
    show (showinfo "Info" "Transcription is already running.") g_running.
Proof.
  apply (start_while_alive_only_shows_dialog env30 g_running);
    [reflexivity | vm_compute; discriminate | reflexivity | reflexivity].
Defined.

(** C4: with a job alive, Start spawns no thread and leaves the worker
    handle, the estimate, the elapsed time, the progress value and the
    pending timers as they are. *)
Theorem start_while_alive_frame (env : Probes) (g : WhisperGUI) :
  job_alive g = true ->
  threads_started (start_transcription env g) = threads_started g /\
  worker_thread (start_transcription env g) = worker_thread g /\
  estimated_seconds (start_transcription env g) = estimated_seconds g /\
  elapsed_ms (start_transcription env g) = elapsed_ms g /\
  progress (start_transcription env g) = progress g /\
  ticks_scheduled (start_transcription env g) = ticks_scheduled g.
Proof.
  intros Halive. destruct (start_rejected env g Halive) as [d ->].
  repeat split.
Qed.

Lemma start_while_alive_frame_witness :
  threads_started (start_transcription env_nofile g_running) = 1%nat /\
  worker_thread (start_transcription env_nofile g_running) = Some true /\
  estimated_seconds (start_transcription env_nofile g_running) = 30 * 1.2 /\
  elapsed_ms (start_transcription env_nofile g_running) = 0%Z /\
  progress (start_transcription env_nofile g_running) = 0 /\
  ticks_scheduled (start_transcription env_nofile g_running) = 1%nat.
Proof.
  apply (start_while_alive_frame env_nofile g_running). reflexivity.
Defined.

(** C8: when the stripped input path is empty or names nothing that
    exists, Start shows the error dialog synchronously and does nothing
    else: no thread is started, no timer is scheduled, and the liveness
    of the worker handle is what it was. *)
Theorem start_rejects_missing_input (env : Probes) (g : WhisperGUI) :
  strip (f_input (form g)) = "" \/
  path_exists env (strip (f_input (form g))) = false ->
  start_transcription env g =
    show (showerror "Error" "Please select a valid input file.") g /\
  dialogs (start_transcription env g) =
    (dialogs g ++ [showerror "Error" "Please select a valid input file."])%list /\
  threads_started (start_transcription env g) = threads_started g /\
  ticks_scheduled (start_transcription env g) = ticks_scheduled g /\
  job_alive (start_transcription env g) = job_alive g.
Proof.
  intros H.
  assert (E : start_transcription env g = show invalid_input_dialog g).
  { unfold start_transcription. destruct H as [-> | ->]; [reflexivity |].
    rewrite orb_true_r. reflexivity. }
  rewrite E. repeat split.
Qed.

Lemma start_rejects_missing_input_witness :
  start_transcription env_nofile g_ready =
    show (showerror "Error" "Please select a valid input file.") g_ready /\
  dialogs (start_transcription env_nofile g_ready) =
    [showerror "Error" "Please select a valid input file."] /\
  threads_started (start_transcription env_nofile g_ready) = 0%nat /\
  ticks_scheduled (start_transcription env_nofile g_ready) = 0%nat /\
  job_alive (start_transcription env_nofile g_ready) = false.
Proof.
  apply (start_rejects_missing_input env_nofile g_ready).
  right. reflexivity.
Defined.

(** ** The estimate *)

(** C6: a job that starts gets the estimate 72 = 60 * 1.2 when ffprobe
    fails or reports a duration <= 0, and the reported duration times 1.2
    otherwise. *)
Theorem estimate_fallback_or_scaled (env : Probes) (g : WhisperGUI) :
  strip (f_input (form g)) <> "" ->
  path_exists env (strip (f_input (form g))) = true ->
  ffmpeg_available env = true ->
  job_alive g = false ->
  ((exists e, ffprobe env (strip (f_input (form g))) = Raise e) \/
   (exists d, ffprobe env (strip (f_input (form g))) = Ok d /\ d <= 0) ->
   estimated_seconds (start_transcription env g) = 60 * 1.2 /\
   estimated_seconds (start_transcription env g) == 72) /\
  (forall d, ffprobe env (strip (f_input (form g))) = Ok d -> 0 < d ->
   estimated_seconds (start_transcription env g) = d * 1.2).
Proof.
  intros Hne Hex Hff Halive.
  rewrite (start_accepted env g Hne Hex Hff Halive). cbn [estimated_seconds].
  unfold get_media_duration. split.
  - intros [[e ->] | (d & -> & Hd)].
    + split; reflexivity.
    + apply Qle_bool_iff in Hd. rewrite Hd. split; reflexivity.
  - intros d -> Hd. destruct (Qle_bool d 0) eqn:E; [| reflexivity].
    apply Qle_bool_iff in E. lra.
Qed.

Lemma estimate_fallback_or_scaled_witness :
  ((exists e, ffprobe env30 (strip (f_input (form g_ready))) = Raise e) \/
   (exists d, ffprobe env30 (strip (f_input (form g_ready))) = Ok d /\ d <= 0) ->
   estimated_seconds (start_transcription env30 g_ready) = 60 * 1.2 /\
   estimated_seconds (start_transcription env30 g_ready) == 72) /\
  (forall d, ffprobe env30 (strip (f_input (form g_ready))) = Ok d -> 0 < d ->
   estimated_seconds (start_transcription env30 g_ready) = d * 1.2).
Proof.
  apply (estimate_fallback_or_scaled env30 g_ready);
    [vm_compute; discriminate | reflexivity | reflexivity | reflexivity].
Defined.

(** C9, as stated, fails on its bound: a half-second clip gives a live job
    whose estimate is 0.6, below 1.2. *)
Lemma estimate_below_1_2 :
  let g := start_transcription env_half g_ready in
  reachable g /\ job_alive g = true /\
  ffprobe env_half (strip (f_input (form g_ready))) = Ok (1 # 2) /\
  estimated_seconds g < 1.2.
Proof.
  cbv zeta. split; [| split; [| split]]; try reflexivity.
  exists [user_edit input_var "talk.mp4"; click_start env_half]. reflexivity.
Qed.

(** C9 (amended): whenever a job is alive the estimate is strictly
    positive, being 1.2 times a positive duration, so the denominator of
    the percentage is not zero and the tick returns normally. *)
Theorem tick_never_divides_by_zero (g : WhisperGUI) :
  reachable g -> job_alive g = true ->
  (exists d, 0 < d /\ estimated_seconds g = d * 1.2) /\
  0 < estimated_seconds g /\
  ~ estimated_seconds g * 1000 == 0 /\
  fst (_progress_tick g) = Ok tt.
Proof.
  intros Hreach Halive. pose proof (reachable_Inv g Hreach) as HI.
  pose proof (Inv_estimate_pos g HI Halive) as Hpos.
  repeat split.
  - apply (inv_estimate g HI). unfold job_alive in Halive.
    destruct (worker_thread g); congruence.
  - exact Hpos.
  - lra.
  - rewrite (tick_alive g Halive Hpos). reflexivity.
Qed.

Lemma tick_never_divides_by_zero_witness :
  (exists d, 0 < d /\ estimated_seconds g_running = d * 1.2) /\
  0 < estimated_seconds g_running /\
  ~ estimated_seconds g_running * 1000 == 0 /\
  fst (_progress_tick g_running) = Ok tt.
Proof.
  apply (tick_never_divides_by_zero g_running);
    [exact reachable_running | reflexivity].
Defined.

(** ** The progress ticker *)

(** C3, as stated, fails: the first job's worker exits after one tick and
    Start is pressed again before the pending tick fires.  That tick, the
    first after the first job's worker has terminated, finds the second
    job's worker alive: it leaves the bar at 5/9 instead of 100 and
    reschedules itself, beside the timer the second Start has set. *)
Lemma restart_before_pending_tick :
  exists g1 g2 g3,
    run [user_edit input_var "talk.mp4"; click_start env30; timer_tick;
         worker_exit] init = Some g1 /\
    job_alive g1 = false /\ threads_started g1 = 1%nat /\
    ticks_scheduled g1 = 1%nat /\
    step (click_start env30) g1 = Some g2 /\
    step timer_tick g2 = Some g3 /\
    progress g3 == 5 # 9 /\ ~ progress g3 == 100 /\
    ticks_scheduled g3 = 2%nat.
Proof.
  do 3 eexists.
  split; [vm_compute; reflexivity |].
  split; [reflexivity |]. split; [reflexivity |]. split; [reflexivity |].
  split; [vm_compute; reflexivity |].
  split; [vm_compute; reflexivity |].
  split; [reflexivity |]. split; [| reflexivity].
  intros H. vm_compute in H. discriminate.
Qed.

(** C3 (amended): in every reachable state the progress value is at most
    98 while a worker is alive; no event other than the start of a new job
    lowers it; and a pending tick returns, keeping the value at most 98 and
    rescheduling itself when it finds a worker alive, setting it to exactly
    100 without rescheduling when it finds none. *)
Theorem progress_monotone_capped_then_100 (g : WhisperGUI) :
  reachable g ->
  (0 < ticks_scheduled g)%nat ->
  (job_alive g = true -> progress g <= 98) /\
  (forall e g', step e g = Some g' ->
     threads_started g' = threads_started g -> progress g <= progress g') /\
  exists g', step timer_tick g = Some g' /\
    progress g <= progress g' /\
    if job_alive g
    then progress g' <= 98 /\ ticks_scheduled g' = ticks_scheduled g
    else progress g' = 100 /\ S (ticks_scheduled g') = ticks_scheduled g.
Proof.
  intros Hreach Htimer. pose proof (reachable_Inv g Hreach) as HI.
  split; [| split].
  - intros Halive. apply Qle_trans with (1 := inv_alive g HI Halive).
    apply py_min_le_cap.
  - intros e g'. apply step_progress_mono, HI.
  - assert (Hstep : exists g', step timer_tick g = Some g' /\
              threads_started g' = threads_started g /\
              if job_alive g
              then progress g' <= 98 /\ ticks_scheduled g' = ticks_scheduled g
              else progress g' = 100 /\
                   S (ticks_scheduled g') = ticks_scheduled g).
    { cbn [step]. destruct (ticks_scheduled g) as [| n]; [lia |].
      set (g1 := mkGUI _ _ _ _ _ _ _ _ n).
      destruct (job_alive g) eqn:Halive.
      - rewrite (tick_alive g1 Halive (Inv_estimate_pos g HI Halive)).
        eexists. split; [reflexivity |]. cbn.
        split; [reflexivity |]. split; [| reflexivity].
        apply py_min_le_cap.
      - rewrite (tick_dead g1 Halive).
        eexists. split; [reflexivity |]. cbn. repeat split. }
    destruct Hstep as (g' & Hstep & Hsame & Hrest). exists g'.
    split; [exact Hstep | split; [| exact Hrest]].
    apply (step_progress_mono timer_tick g g' HI Hstep Hsame).
Qed.

Lemma progress_monotone_capped_then_100_witness :
  (job_alive g_finished = true -> progress g_finished <= 98) /\
  (forall e g', step e g_finished = Some g' ->
     threads_started g' = threads_started g_finished ->
     progress g_finished <= progress g') /\
  exists g', step timer_tick g_finished = Some g' /\
    progress g_finished <= progress g' /\
    (progress g' = 100 /\ S (ticks_scheduled g') = ticks_scheduled g_finished).
Proof.
  apply (progress_monotone_capped_then_100 g_finished);
    [exact reachable_finished | vm_compute; lia].
Defined.

(** C10: a tick on a live job shows "Running ... estimated ~r s remaining"
    where r is the truncated remaining time clamped at 0: r is never
    negative, prints without a sign, and is 0 as soon as the simulated
    elapsed time has reached the estimate. *)
Theorem remaining_time_clamped (g : WhisperGUI) :
  reachable g -> job_alive g = true -> (0 < ticks_scheduled g)%nat ->
  exists g' r,
    step timer_tick g = Some g' /\
    r = int_of_float
          (py_max 0 ((estimated_seconds g * 1000 - inject_Z (elapsed_ms g'))
                     / 1000)) /\
    status_var g' =
      "Running ... estimated ~" ++ str_of_int r ++ " s remaining" /\
    (0 <= r)%Z /\
    String.prefix "-" (str_of_int r) = false /\
    (estimated_seconds g * 1000 <= inject_Z (elapsed_ms g') -> r = 0%Z).
Proof.
  intros Hreach Halive Htimer. pose proof (reachable_Inv g Hreach) as HI.
  cbn [step]. destruct (ticks_scheduled g) as [| n]; [lia |].
  set (g1 := mkGUI _ _ _ _ _ _ _ _ n).
  rewrite (tick_alive g1 Halive (Inv_estimate_pos g HI Halive)).
  eexists. eexists. split; [reflexivity |]. cbn.
  split; [reflexivity |]. split; [reflexivity |].
  assert (Hr : (0 <= int_of_float
                  (py_max 0 ((estimated_seconds g * 1000
                              - inject_Z (elapsed_ms g + 200)) / 1000)))%Z)
    by apply int_of_float_nonneg, py_max_nonneg.
  split; [exact Hr |]. split; [apply str_of_int_unsigned, Hr |].
  intros Hover. rewrite py_max_clamped; [reflexivity |].
  apply Qle_shift_div_r; lra.
Qed.

Lemma remaining_time_clamped_witness :
  exists g' r,
    step timer_tick g_running = Some g' /\
    r = int_of_float
          (py_max 0 ((estimated_seconds g_running * 1000
                      - inject_Z (elapsed_ms g')) / 1000)) /\
    status_var g' =
      "Running ... estimated ~" ++ str_of_int r ++ " s remaining" /\
    (0 <= r)%Z /\
    String.prefix "-" (str_of_int r) = false /\
    (estimated_seconds g_running * 1000 <= inject_Z (elapsed_ms g') ->
     r = 0%Z).
Proof.
  apply (remaining_time_clamped g_running);
    [exact reachable_running | reflexivity | vm_compute; lia].
Defined.

(* ------------------------------------------------------------------ *)
(** ** Further properties of the start guard *)

(** X1: a click on Start either shows exactly one dialog or starts exactly
    one thread, never both; and it starts a thread exactly when the
    stripped input path is non-empty and exists, ffmpeg answers, and no
    worker is alive. *)
Theorem start_one_dialog_or_one_thread (env : Probes) (g : WhisperGUI) :
  (length (dialogs (start_transcription env g))
   + threads_started (start_transcription env g)
   = S (length (dialogs g) + threads_started g))%nat /\
  (threads_started (start_transcription env g) = S (threads_started g) <->
   strip (f_input (form g)) <> "" /\
   path_exists env (strip (f_input (form g))) = true /\
   ffmpeg_available env = true /\
   job_alive g = false) /\
  (threads_started (start_transcription env g) = S (threads_started g) ->
   job_alive (start_transcription env g) = true /\
   (0 < ticks_scheduled (start_transcription env g))%nat /\
   dialogs (start_transcription env g) = dialogs g).
Proof.
  unfold start_transcription.
  destruct (String.eqb (strip (f_input (form g))) "") eqn:Hempty.
  { apply String.eqb_eq in Hempty.
    cbn [orb show dialogs threads_started]. rewrite length_app. cbn [length].
    split; [lia |]. split; [| lia]. split; [lia |].
    intros (Hne & _). congruence. }
  apply String.eqb_neq in Hempty.
  destruct (path_exists env (strip (f_input (form g)))) eqn:Hex.
  2: { cbn [orb negb show dialogs threads_started]. rewrite length_app.
       cbn [length]. split; [lia |]. split; [| lia]. split; [lia |].
       intros (_ & H & _). congruence. }
  destruct (ffmpeg_available env) eqn:Hff.
  2: { cbn [orb negb show dialogs threads_started]. rewrite length_app.
       cbn [length]. split; [lia |]. split; [| lia]. split; [lia |].
       intros (_ & _ & H & _). congruence. }
  destruct (job_alive g) eqn:Halive.
  { cbn [orb negb show dialogs threads_started]. rewrite length_app.
    cbn [length]. split; [lia |]. split; [| lia]. split; [lia |].
    intros (_ & _ & _ & H). congruence. }
  cbn [orb negb dialogs threads_started ticks_scheduled job_alive
       worker_thread].
  split; [lia |]. split; [tauto |]. intros _. repeat split. lia.
Qed.

(** X2: Start looks at the form only through the stripped input entry:
    blanks around the path and the four other fields change neither its
    verdict nor the state it leaves. *)
Theorem start_reads_stripped_input (env : Probes) (g : WhisperGUI) (f : Form) :
  strip (f_input f) = strip (f_input (form g)) ->
  start_transcription env (with_form f g) =
  with_form f (start_transcription env g).
Proof.
  intros Hstrip. unfold start_transcription, with_form, show, job_alive.
  cbn [form worker_thread estimated_seconds elapsed_ms progress
       status_var dialogs threads_started ticks_scheduled].
  rewrite Hstrip.
  destruct (_ || _); [reflexivity |].
  destruct (negb _); [reflexivity |].
  destruct (worker_thread g) as [[|] |]; reflexivity.
Qed.

Lemma start_reads_stripped_input_witness :
  start_transcription env30
    (with_form (mkForm "  talk.mp4 " "tiny" "Auto" "cpu" "") g_ready) =
  with_form (mkForm "  talk.mp4 " "tiny" "Auto" "cpu" "")
    (start_transcription env30 g_ready).
Proof.
  apply (start_reads_stripped_input env30 g_ready
           (mkForm "  talk.mp4 " "tiny" "Auto" "cpu" "")).
  reflexivity.
Defined.

(* ------------------------------------------------------------------ *)
(** ** The file choosers *)

Lemma initialfile_not_empty (g : WhisperGUI) : initialfile g <> "".
Proof.
  unfold initialfile.
  destruct (String.eqb (strip (f_output (form g))) "") eqn:E;
    [discriminate | apply String.eqb_neq, E].
Qed.

(** X3: the file choosers act on the form alone, as one edit of one entry
    or not at all: a cancelled dialog changes nothing, a chosen name
    replaces the input (resp. output) entry, and the state stays
    reachable.  The name offered by the save dialog is never empty. *)
Theorem choosers_edit_one_entry
    (filename : string) (ask : string -> string) (g : WhisperGUI) :
  reachable g ->
  reachable (select_file filename g) /\
  reachable (select_output_file ask g) /\
  select_file "" g = g /\
  (ask (initialfile g) = "" -> select_output_file ask g = g) /\
  (filename <> "" ->
   Some (select_file filename g) = step (user_edit input_var filename) g) /\
  (ask (initialfile g) <> "" ->
   Some (select_output_file ask g) =
   step (user_edit output_var (ask (initialfile g))) g) /\
  initialfile g <> "".
Proof.
  intros [evs Hrun].
  assert (Hsnoc : forall e g', step e g = Some g' -> reachable g').
  { intros e g' Hstep. exists (evs ++ [e])%list.
    clear - Hrun Hstep. revert Hrun. generalize init.
    induction evs as [| e0 evs IH]; intros g0 Hrun; cbn in Hrun |- *.
    - injection Hrun as ->. rewrite Hstep. reflexivity.
    - destruct (step e0 g0); [apply IH, Hrun | discriminate]. }
  assert (Hin : filename <> "" ->
                Some (select_file filename g) =
                step (user_edit input_var filename) g).
  { intros Hne. apply String.eqb_neq in Hne.
    unfold select_file. rewrite Hne. reflexivity. }
  assert (Hout : ask (initialfile g) <> "" ->
                 Some (select_output_file ask g) =
                 step (user_edit output_var (ask (initialfile g))) g).
  { intros Hne. apply String.eqb_neq in Hne.
    unfold select_output_file. cbv zeta. rewrite Hne. reflexivity. }
  assert (Hcancel : ask (initialfile g) = "" -> select_output_file ask g = g).
  { intros E. unfold select_output_file. cbv zeta. rewrite E. reflexivity. }
  repeat split; try assumption.
  - destruct (String.eqb filename "") eqn:E.
    + unfold select_file. rewrite E. exists evs. exact Hrun.
    + apply String.eqb_neq in E. eapply Hsnoc. symmetry. apply Hin, E.
  - destruct (String.eqb (ask (initialfile g)) "") eqn:E.
    + apply String.eqb_eq in E. rewrite (Hcancel E). exists evs. exact Hrun.
    + apply String.eqb_neq in E. eapply Hsnoc. symmetry. apply Hout, E.
  - apply initialfile_not_empty.
Qed.

Lemma choosers_edit_one_entry_witness :
  reachable (select_file "talk.mp4" init) /\
  reachable (select_output_file (fun s => "out/" ++ s) init) /\
  select_file "" init = init /\
  ("out/" ++ initialfile init = "" ->
   select_output_file (fun s => "out/" ++ s) init = init) /\
  ("talk.mp4" <> "" ->
   Some (select_file "talk.mp4" init) =
   step (user_edit input_var "talk.mp4") init) /\
  ("out/" ++ initialfile init <> "" ->
   Some (select_output_file (fun s => "out/" ++ s) init) =
   step (user_edit output_var ("out/" ++ initialfile init)) init) /\
  initialfile init <> "".
Proof.
  apply (choosers_edit_one_entry "talk.mp4" (fun s => "out/" ++ s) init).
  exists []. reflexivity.
Defined.

(* ------------------------------------------------------------------ *)
(** ** The polling loop *)

Lemma run_app (evs1 evs2 : list Event) (g : WhisperGUI) :
  run (evs1 ++ evs2) g =
  match run evs1 g with
  | Some g1 => run evs2 g1
  | None => None
  end.
Proof.
  revert g. induction evs1 as [| e evs1 IH]; intros g; cbn; [reflexivity |].
  destruct (step e g); [apply IH | reflexivity].
Qed.

Lemma run_invariant (P : WhisperGUI -> Prop) :
  (forall e g g', P g -> step e g = Some g' -> P g') ->
  forall evs g g', P g -> run evs g = Some g' -> P g'.
Proof.
  intros Hstep evs. induction evs as [| e evs IH]; intros g g' HP Hrun;
    cbn in Hrun.
  - injection Hrun as <-. exact HP.
  - destruct (step e g) as [g1 |] eqn:E; [| discriminate].
    eapply IH; [eapply Hstep |]; eassumption.
Qed.

(** One tick on a live job, as a step of the application. *)
Lemma step_tick_alive (g : WhisperGUI) :
  Inv g -> job_alive g = true -> (0 < ticks_scheduled g)%nat ->
  step timer_tick g =
    Some (mkGUI (form g) (worker_thread g) (estimated_seconds g)
            (elapsed_ms g + 200)%Z
            (py_min (pct (estimated_seconds g) (elapsed_ms g + 200)) 98)
            ("Running ... estimated ~" ++
               str_of_int (int_of_float
                 (py_max 0 ((estimated_seconds g * 1000
                             - inject_Z (elapsed_ms g + 200)) / 1000)))
               ++ " s remaining")
            (dialogs g) (threads_started g) (ticks_scheduled g)).
Proof.
  intros HI Halive Htimer. cbn [step].
  destruct (ticks_scheduled g) as [| n]; [lia |].
  set (g1 := mkGUI _ _ _ _ _ _ _ _ n).
  rewrite (tick_alive g1 Halive (Inv_estimate_pos g HI Halive)). reflexivity.
Qed.

Lemma step_tick_dead (g : WhisperGUI) (n : nat) :
  job_alive g = false -> ticks_scheduled g = S n ->
  step timer_tick g =
    Some (mkGUI (form g) (worker_thread g) (estimated_seconds g)
            (elapsed_ms g) 100 (status_var g) (dialogs g)
            (threads_started g) n).
Proof.
  intros Halive Hn. cbn [step]. rewrite Hn.
  set (g1 := mkGUI _ _ _ _ _ _ _ _ n).
  rewrite (tick_dead g1 Halive). reflexivity.
Qed.

Lemma Polling_step (e : Event) (g g' : WhisperGUI) :
  Polling g -> step e g = Some g' -> Polling g'.
Proof.
  intros [Ha Hb Ht] Hstep. destruct e.
  - injection Hstep as <-.
    destruct (start_cases env g) as [[d ->] | (_ & d & _ & ->)].
    + constructor; assumption.
    + constructor; cbn.
      * intros _. lia.
      * lia.
      * split; [discriminate | lia].
  - cbn in Hstep. destruct (ticks_scheduled g) as [| n] eqn:Hn;
      [discriminate |].
    set (g1 := mkGUI _ _ _ _ _ _ _ _ n) in Hstep.
    assert (Hg1 : job_alive g1 = job_alive g) by reflexivity.
    destruct (job_alive g) eqn:Halive.
    + unfold _progress_tick in Hstep. rewrite Hg1 in Hstep.
      destruct (Qeq_bool _ 0); [discriminate |]. injection Hstep as <-.
      constructor; cbn; [intros _; lia | lia | exact Ht].
    + rewrite (tick_dead g1 Hg1) in Hstep. injection Hstep as <-.
      constructor; cbn; [| lia | exact Ht].
      intros H. change (job_alive g = true) in H. congruence.
  - cbn in Hstep. destruct (worker_thread g) as [[|] |] eqn:Hw;
      try discriminate.
    injection Hstep as <-. constructor; cbn; [discriminate | exact Hb |].
    split; [discriminate |]. intros H. apply Ht in H. discriminate.
  - injection Hstep as <-. constructor; assumption.
  - injection Hstep as <-. constructor; assumption.
Qed.

Lemma reachable_Polling (g : WhisperGUI) : reachable g -> Polling g.
Proof.
  intros [evs Hrun]. eapply (run_invariant Polling Polling_step);
    [| exact Hrun].
  constructor; cbn; [discriminate | lia | tauto].
Qed.

(** X4: in every reachable state the bar stays within its range 0..100,
    the simulated time is not negative, a tick is pending whenever the
    worker is alive, there are never more pending ticks than threads
    started, and a thread handle exists exactly when a thread was started. *)
Theorem application_invariants (g : WhisperGUI) :
  reachable g ->
  0 <= progress g <= 100 /\
  (0 <= elapsed_ms g)%Z /\
  (job_alive g = true -> (0 < ticks_scheduled g)%nat) /\
  (ticks_scheduled g <= threads_started g)%nat /\
  (worker_thread g = None <-> threads_started g = 0%nat).
Proof.
  intros Hreach. pose proof (reachable_Inv g Hreach) as HI.
  destruct (reachable_Polling g Hreach) as [Ha Hb Ht].
  split; [apply (inv_range g HI) |]. split; [apply (inv_elapsed g HI) |].
  split; [exact Ha |]. split; [exact Hb | exact Ht].
Qed.

Lemma application_invariants_witness :
  0 <= progress g_running <= 100 /\
  (0 <= elapsed_ms g_running)%Z /\
  (job_alive g_running = true -> (0 < ticks_scheduled g_running)%nat) /\
  (ticks_scheduled g_running <= threads_started g_running)%nat /\
  (worker_thread g_running = None <-> threads_started g_running = 0%nat).
Proof.
  apply (application_invariants g_running). exact reachable_running.
Defined.

Lemma ticks_on_live_job (n : nat) :
  forall g, Inv g -> job_alive g = true -> (0 < ticks_scheduled g)%nat ->
  exists g',
    run (repeat timer_tick n) g = Some g' /\
    Inv g' /\
    form g' = form g /\ worker_thread g' = worker_thread g /\
    estimated_seconds g' = estimated_seconds g /\
    elapsed_ms g' = (elapsed_ms g + 200 * Z.of_nat n)%Z /\
    (n <> 0%nat ->
     progress g' = py_min (pct (estimated_seconds g) (elapsed_ms g')) 98) /\
    dialogs g' = dialogs g /\ threads_started g' = threads_started g /\
    ticks_scheduled g' = ticks_scheduled g.
Proof.
  induction n as [| n IH]; intros g HI Halive Htimer.
  - exists g. cbn [repeat run]. repeat split; try assumption; try apply HI.
    + lia.
    + congruence.
  - cbn [repeat run].
    pose proof (step_tick_alive g HI Halive Htimer) as Hstep.
    rewrite Hstep.
    pose proof (Inv_tick g _ HI Hstep) as HI1.
    destruct (IH _ HI1 Halive Htimer)
      as (g' & Hrun & HI' & Hf & Hw & He & Hel & Hp & Hd & Hth & Hti).
    cbn in Hf, Hw, He, Hel, Hp, Hd, Hth, Hti.
    exists g'. split; [exact Hrun |]. split; [exact HI' |].
    repeat split; try assumption.
    + lia.
    + intros _. destruct n as [| n].
      * cbn in Hrun. injection Hrun as <-. cbn. reflexivity.
      * apply Hp. discriminate.
Qed.

(** X5: on a live job n ticks in a row all return; they add 200 n ms to
    the simulated time, leave the bar at min(elapsed / (estimate * 1000)
    * 100, 98) for the new elapsed time, keep one and the same timer
    pending and touch neither the form, the estimate nor the worker. *)
Theorem n_ticks_on_live_job (n : nat) (g : WhisperGUI) :
  reachable g -> job_alive g = true ->
  exists g',
    run (repeat timer_tick n) g = Some g' /\
    elapsed_ms g' = (elapsed_ms g + 200 * Z.of_nat n)%Z /\
    (n <> 0%nat ->
     progress g' = py_min (pct (estimated_seconds g) (elapsed_ms g')) 98) /\
    form g' = form g /\ worker_thread g' = worker_thread g /\
    estimated_seconds g' = estimated_seconds g /\
    threads_started g' = threads_started g /\
    ticks_scheduled g' = ticks_scheduled g.
Proof.
  intros Hreach Halive.
  pose proof (reachable_Inv g Hreach) as HI.
  pose proof (poll_alive g (reachable_Polling g Hreach) Halive) as Htimer.
  destruct (ticks_on_live_job n g HI Halive Htimer)
    as (g' & Hrun & _ & Hf & Hw & He & Hel & Hp & _ & Hth & Hti).
  exists g'. repeat split; assumption.
Qed.

Lemma n_ticks_on_live_job_witness :
  exists g',
    run (repeat timer_tick 90) g_running = Some g' /\
    elapsed_ms g' = (elapsed_ms g_running + 200 * Z.of_nat 90)%Z /\
    (90%nat <> 0%nat ->
     progress g' =
       py_min (pct (estimated_seconds g_running) (elapsed_ms g')) 98) /\
    form g' = form g_running /\ worker_thread g' = worker_thread g_running /\
    estimated_seconds g' = estimated_seconds g_running /\
    threads_started g' = threads_started g_running /\
    ticks_scheduled g' = ticks_scheduled g_running.
Proof.
  apply (n_ticks_on_live_job 90 g_running);
    [exact reachable_running | reflexivity].
Defined.

Lemma saturation (est : Q) (e : Z) :
  0 < est ->
  (py_min (pct est e) 98 == 98 <-> 980 * est <= inject_Z e).
Proof.
  intros Hest. unfold py_min, pct.
  set (x := inject_Z e). set (q := x / (est * 1000)).
  assert (Hx : x == q * (est * 1000)).
  { unfold q. field. lra. }
  destruct (Qlt_le_dec 98 (q * 100)) as [Hlt | Hle].
  - split; [intros _ | intros _; reflexivity]. rewrite Hx. nra.
  - split.
    + intros Heq. rewrite Hx. nra.
    + intros H. rewrite Hx in H.
      assert (98 <= q * 100) by nra. lra.
Qed.

(** X6: the bar shows 98 exactly from the tick at which the simulated time
    has reached 98 % of the estimate (980 ms per estimated second); until
    then it shows the raw percentage, which is below 98. *)
Theorem bar_saturates_at_98_percent (g : WhisperGUI) :
  reachable g -> job_alive g = true ->
  exists g',
    step timer_tick g = Some g' /\
    (progress g' == 98 <->
     980 * estimated_seconds g <= inject_Z (elapsed_ms g')) /\
    (inject_Z (elapsed_ms g') < 980 * estimated_seconds g ->
     progress g' = pct (estimated_seconds g) (elapsed_ms g') /\
     progress g' < 98).
Proof.
  intros Hreach Halive.
  pose proof (reachable_Inv g Hreach) as HI.
  pose proof (poll_alive g (reachable_Polling g Hreach) Halive) as Htimer.
  pose proof (Inv_estimate_pos g HI Halive) as Hpos.
  rewrite (step_tick_alive g HI Halive Htimer).
  eexists. split; [reflexivity |]. cbn [progress elapsed_ms].
  pose proof (saturation (estimated_seconds g) (elapsed_ms g + 200) Hpos)
    as Hsat.
  split; [exact Hsat |].
  intros Hbelow. unfold py_min in *.
  destruct (Qlt_le_dec 98 (pct (estimated_seconds g) (elapsed_ms g + 200)))
    as [Hlt | Hle].
  - exfalso. assert (H : 98 == 98) by reflexivity. apply Hsat in H. lra.
  - split; [reflexivity |].
    apply Qle_lt_or_eq in Hle. destruct Hle as [Hlt | Heq]; [exact Hlt |].
    exfalso. apply Hsat in Heq. lra.
Qed.

Lemma bar_saturates_at_98_percent_witness :
  exists g',
    step timer_tick g_running = Some g' /\
    (progress g' == 98 <->
     980 * estimated_seconds g_running <= inject_Z (elapsed_ms g')) /\
    (inject_Z (elapsed_ms g') < 980 * estimated_seconds g_running ->
     progress g' = pct (estimated_seconds g_running) (elapsed_ms g') /\
     progress g' < 98).
Proof.
  apply (bar_saturates_at_98_percent g_running);
    [exact reachable_running | reflexivity].
Defined.

Lemma drain (k : nat) :
  forall g, job_alive g = false -> ticks_scheduled g = k ->
  run (repeat timer_tick k) g =
    Some (mkGUI (form g) (worker_thread g) (estimated_seconds g)
            (elapsed_ms g) (match k with O => progress g | S _ => 100 end)
            (status_var g)
            (dialogs g) (threads_started g) 0).
Proof.
  induction k as [| k IH]; intros g Halive Hk; cbn [repeat run].
  - destruct g. cbn in Hk. subst. reflexivity.
  - rewrite (step_tick_dead g k Halive Hk).
    rewrite IH; [| exact Halive | reflexivity].
    cbn. destruct k; reflexivity.
Qed.

(** X7: once the worker has exited, the pending ticks drain: each of them
    returns, after them the bar is at 100, no timer is left and no further
    tick can fire; the status text, the simulated time and the form are
    left as they were. *)
Theorem pending_ticks_drain (g : WhisperGUI) :
  job_alive g = false ->
  exists g',
    run (repeat timer_tick (ticks_scheduled g)) g = Some g' /\
    ticks_scheduled g' = 0%nat /\
    step timer_tick g' = None /\
    ((0 < ticks_scheduled g)%nat -> progress g' = 100) /\
    status_var g' = status_var g /\ elapsed_ms g' = elapsed_ms g /\
    form g' = form g /\ worker_thread g' = worker_thread g /\
    threads_started g' = threads_started g.
Proof.
  intros Halive. rewrite (drain _ g Halive eq_refl).
  eexists. split; [reflexivity |]. cbn. repeat split.
  intros H. destruct (ticks_scheduled g); [lia | reflexivity].
Qed.

Lemma pending_ticks_drain_witness :
  exists g',
    run (repeat timer_tick (ticks_scheduled g_finished)) g_finished
      = Some g' /\
    ticks_scheduled g' = 0%nat /\
    step timer_tick g' = None /\
    ((0 < ticks_scheduled g_finished)%nat -> progress g' = 100) /\
    status_var g' = status_var g_finished /\
    elapsed_ms g' = elapsed_ms g_finished /\
    form g' = form g_finished /\
    worker_thread g' = worker_thread g_finished /\
    threads_started g' = threads_started g_finished.
Proof.
  apply (pending_ticks_drain g_finished). reflexivity.
Defined.

(* ------------------------------------------------------------------ *)
(** ** Status callbacks and ticks *)

Lemma alive_thread (g : WhisperGUI) :
  job_alive g = true -> worker_thread g = Some true.
Proof. unfold job_alive. destruct (worker_thread g) as [[|] |]; congruence. Qed.

Lemma step_worker_exit (g : WhisperGUI) :
  job_alive g = true ->
  step worker_exit g =
    Some (mkGUI (form g) (Some false) (estimated_seconds g) (elapsed_ms g)
            (progress g) (status_var g) (dialogs g) (threads_started g)
            (ticks_scheduled g)).
Proof. intros Halive. cbn [step]. rewrite (alive_thread g Halive). reflexivity. Qed.

Lemma in_flight_run (evs : list Event) :
  forall g, Inv g -> job_alive g = true -> (0 < ticks_scheduled g)%nat ->
  forallb in_flight_event evs = true ->
  exists g1,
    run evs g = Some g1 /\ Inv g1 /\
    worker_thread g1 = worker_thread g /\ form g1 = form g /\
    estimated_seconds g1 = estimated_seconds g /\
    dialogs g1 = dialogs g /\
    threads_started g1 = threads_started g /\
    ticks_scheduled g1 = ticks_scheduled g.
Proof.
  induction evs as [| e evs IH]; intros g HI Halive Htimer Hevs.
  - exists g. split; [reflexivity |]. split; [exact HI |]. repeat split.
  - cbn [forallb] in Hevs. apply andb_true_iff in Hevs as [He Hevs].
    cbn [run].
    assert (Hstep : exists g0,
              step e g = Some g0 /\
              worker_thread g0 = worker_thread g /\ form g0 = form g /\
              estimated_seconds g0 = estimated_seconds g /\
              dialogs g0 = dialogs g /\
              threads_started g0 = threads_started g /\
              ticks_scheduled g0 = ticks_scheduled g).
    { destruct e; try discriminate.
      - rewrite (step_tick_alive g HI Halive Htimer).
        eexists. split; [reflexivity |]. repeat split.
      - eexists. split; [reflexivity |]. repeat split. }
    destruct Hstep as (g0 & Hstep & Hw & Hf & Hest & Hd & Hth & Hti).
    rewrite Hstep.
    destruct (IH g0) as (g1 & Hrun & HI1 & Hw1 & Hf1 & Hest1 & Hd1 & Hth1 & Hti1).
    + eapply Inv_step; eassumption.
    + unfold job_alive in *. rewrite Hw. exact Halive.
    + lia.
    + exact Hevs.
    + exists g1. split; [exact Hrun |]. split; [exact HI1 |].
      repeat split; congruence.
Qed.

(** X8: while a job is in flight its ticks and status callbacks, in any
    order and number, all return and leave the worker handle, the form,
    the estimate and the pending timer alone.  If the last status (the
    terminal one) is applied after the last of these ticks, it is the text
    left on display when the worker has exited and the closing tick has
    set the bar to 100. *)
Theorem terminal_status_stays (g : WhisperGUI) (evs : list Event)
    (msg : string) :
  reachable g -> job_alive g = true ->
  forallb in_flight_event evs = true ->
  exists g',
    run (evs ++ [status_update msg; worker_exit; timer_tick]) g = Some g' /\
    status_var g' = msg /\ progress g' = 100 /\ job_alive g' = false /\
    form g' = form g /\ threads_started g' = threads_started g /\
    S (ticks_scheduled g') = ticks_scheduled g.
Proof.
  intros Hreach Halive Hevs.
  pose proof (reachable_Inv g Hreach) as HI.
  pose proof (poll_alive g (reachable_Polling g Hreach) Halive) as Htimer.
  destruct (in_flight_run evs g HI Halive Htimer Hevs)
    as (g1 & Hrun & _ & Hw & Hf & _ & _ & Hth & Hti).
  rewrite run_app, Hrun. cbn [run step].
  rewrite Hw, (alive_thread g Halive).
  cbn [ticks_scheduled worker_thread status_var].
  destruct (ticks_scheduled g1) as [| n] eqn:Hn; [lia |].
  set (g2 := mkGUI _ _ _ _ _ _ _ _ n).
  rewrite (tick_dead g2 eq_refl).
  eexists. split; [reflexivity |]. cbn. repeat split; congruence.
Qed.

Lemma terminal_status_stays_witness :
  exists g',
    run ([timer_tick; status_update "Transcribing ..."; timer_tick]
         ++ [status_update "Done. Transcript saved to: out.txt";
             worker_exit; timer_tick]) g_running = Some g' /\
    status_var g' = "Done. Transcript saved to: out.txt" /\
    progress g' = 100 /\ job_alive g' = false /\
    form g' = form g_running /\
    threads_started g' = threads_started g_running /\
    S (ticks_scheduled g') = ticks_scheduled g_running.
Proof.
  apply (terminal_status_stays g_running
           [timer_tick; status_update "Transcribing ..."; timer_tick]
           "Done. Transcript saved to: out.txt");
    [exact reachable_running | reflexivity | reflexivity].
Defined.

(** X9: a tick that still finds the worker alive replaces whatever status
    has been applied before it, the terminal one included: when such a
    tick runs between the terminal status callback and the worker's exit,
    the job ends with the bar at 100 under a "Running ..." text, which no
    later tick corrects. *)
Theorem live_tick_overwrites_status (g : WhisperGUI) (msg : string) :
  reachable g -> job_alive g = true ->
  exists g' r,
    run [status_update msg; timer_tick; worker_exit; timer_tick] g
      = Some g' /\
    job_alive g' = false /\ progress g' = 100 /\
    status_var g' =
      "Running ... estimated ~" ++ str_of_int r ++ " s remaining" /\
    Worker.is_terminal (status_var g') = false /\
    forall n g'', run (repeat timer_tick n) g' = Some g'' ->
                  status_var g'' = status_var g'.
Proof.
  intros Hreach Halive.
  pose proof (reachable_Inv g Hreach) as HI.
  pose proof (poll_alive g (reachable_Polling g Hreach) Halive) as Htimer.
  pose (g1 := mkGUI (form g) (worker_thread g) (estimated_seconds g)
                (elapsed_ms g) (progress g) msg (dialogs g)
                (threads_started g) (ticks_scheduled g)).
  assert (HI1 : Inv g1) by (destruct HI; constructor; assumption).
  change (run [status_update msg; timer_tick; worker_exit; timer_tick] g)
    with (match step timer_tick g1 with
          | Some g' => run [worker_exit; timer_tick] g'
          | None => None
          end).
  rewrite (step_tick_alive g1 HI1 Halive Htimer).
  set (g2 := mkGUI _ _ _ _ _ _ _ _ _).
  cbn [run]. rewrite (step_worker_exit g2 Halive).
  set (g3 := mkGUI _ (Some false) _ _ _ _ _ _ _).
  destruct (ticks_scheduled g) as [| n] eqn:Hn; [lia |].
  assert (Hn3 : ticks_scheduled g3 = S n) by reflexivity.
  rewrite (step_tick_dead g3 n eq_refl Hn3).
  eexists. eexists. split; [reflexivity |].
  cbn [job_alive worker_thread progress status_var g3 g2].
  split; [reflexivity |]. split; [reflexivity |]. split; [reflexivity |].
  split; [reflexivity |].
  intros k. set (g4 := mkGUI _ _ _ _ 100 _ _ _ n).
  assert (Hdead : forall k g4, job_alive g4 = false ->
            forall g'', run (repeat timer_tick k) g4 = Some g'' ->
            status_var g'' = status_var g4).
  { clear. induction k as [| k IH]; intros g4 Hdead g'' Hrun;
      cbn [repeat run] in Hrun.
    - injection Hrun as <-. reflexivity.
    - destruct (ticks_scheduled g4) as [| m] eqn:Hm.
      + cbn [step] in Hrun. rewrite Hm in Hrun. discriminate.
      + rewrite (step_tick_dead g4 m Hdead Hm) in Hrun.
        apply IH in Hrun; [exact Hrun | exact Hdead]. }
  apply (Hdead k g4 eq_refl).
Qed.

Lemma live_tick_overwrites_status_witness :
  exists g' r,
    run [status_update "Done. Transcript saved to: out.txt"; timer_tick;
         worker_exit; timer_tick] g_running = Some g' /\
    job_alive g' = false /\ progress g' = 100 /\
    status_var g' =
      "Running ... estimated ~" ++ str_of_int r ++ " s remaining" /\
    Worker.is_terminal (status_var g') = false /\
    forall n g'', run (repeat timer_tick n) g' = Some g'' ->
                  status_var g'' = status_var g'.
Proof.
  apply (live_tick_overwrites_status g_running
           "Done. Transcript saved to: out.txt");
    [exact reachable_running | reflexivity].
Defined.

End Controller.

(* ================================================================== *)
(** * Properties of the worker thread *)

Section Job.

Import Worker.

(** Symbolic execution of the worker on a world given by its fields. *)
Ltac run_worker :=
  cbv beta iota zeta delta
    [_do_transcription _do_transcription_body write_output try_except bind
     var_get call _set_status set_file ret outcome seen
     fst snd vars edits after0 calls files get negb];
  cbn [hd tl apply_edits fold_left f_input f_model f_lang f_device f_output].

Ltac branch_on x := destruct x eqn:?; run_worker.

Ltac branch :=
  match goal with
  | |- context [cuda_is_available ?e] => branch_on (cuda_is_available e)
  | |- context [set_num_threads ?e ?n] => branch_on (set_num_threads e n)
  | |- context [load_model ?e ?n ?d] => branch_on (load_model e n d)
  | |- context [transcribe ?e ?m ?p ?l ?h] => branch_on (transcribe e m p l h)
  | |- context [fs_open ?e ?p] => branch_on (fs_open e p)
  | |- context [fs_write ?e ?p ?t] => branch_on (fs_write e p t)
  | |- context [if ?b then _ else _] => is_var b; branch_on b
  | |- context [String.eqb ?a ?b] => branch_on (String.eqb a b)
  end.

Ltac unit_values :=
  repeat match goal with u : unit |- _ => destruct u end.

Ltac each_call :=
  lazymatch goal with
  | |- Forall _ [] => constructor
  | |- Forall _ (_ :: _) => constructor; [cbn beta iota | each_call]
  end.

Ltac answers :=
  cbn [answer];
  repeat match goal with
  | H : ?x = _ |- context [forget ?x] => rewrite H
  end;
  cbn [forget].

Lemma seen_quiet (f : Form) (n : nat) : seen f (repeat [] n) = f.
Proof.
  destruct f. do 5 (destruct n as [| n]; [reflexivity |]). reflexivity.
Qed.

(** C1, as stated, fails: two jobs start from the same form; in one the
    user retargets the input and output entries while the model loads, and
    that job transcribes the other file and writes the other location. *)
Lemma in_flight_edit_changes_job :
  let quiet := snd (_do_transcription eng_cpu (mkWorld talk_form [] [] [] ∅)) in
  let edited :=
    snd (_do_transcription eng_cpu (mkWorld talk_form late_edits [] [] ∅)) in
  In (transcribe_call (mkModel "large" "cpu") "talk.mp4" (Some "German")
        0%Q false false true) (calls quiet) /\
  In (transcribe_call (mkModel "large" "cpu") "other.mp4" (Some "German")
        0%Q false false true) (calls edited) /\
  files quiet !! "transcript_output.txt" = Some "hello" /\
  files edited !! "transcript_output.txt" = None /\
  files edited !! "other.txt" = Some "hello" /\
  calls quiet <> calls edited.
Proof.
  cbv zeta.
  split; [vm_compute; repeat first [left; reflexivity | right] |].
  split; [vm_compute; repeat first [left; reflexivity | right] |].
  split; [vm_compute; reflexivity |].
  split; [vm_compute; reflexivity |].
  split; [vm_compute; reflexivity |].
  vm_compute. discriminate.
Qed.

Lemma job_as_frozen
    (eng : Engine) (f : Form) (sched : list (list Edit))
    (q : list string) (c : list Call) (fs : gmap string string) :
  outcome (_do_transcription eng (mkWorld f sched q c fs)) =
  outcome (_do_transcription eng (mkWorld (seen f sched) [] q c fs)).
Proof. run_worker. repeat branch; reflexivity. Qed.

(** C1 (amended): a job behaves as a job run on the frozen form made of
    the values each field has when the worker reads it; two jobs that see
    the same values behave alike, whatever else is edited; and with no
    edit in flight the values seen are those at job start. *)
Theorem job_depends_on_fields_as_read
    (eng : Engine) (f : Form) (sched : list (list Edit))
    (q : list string) (c : list Call) (fs : gmap string string) :
  outcome (_do_transcription eng (mkWorld f sched q c fs)) =
  outcome (_do_transcription eng (mkWorld (seen f sched) [] q c fs)) /\
  (forall sched',
     seen f sched' = seen f sched ->
     outcome (_do_transcription eng (mkWorld f sched' q c fs)) =
     outcome (_do_transcription eng (mkWorld f sched q c fs))) /\
  (forall n, seen f (repeat [] n) = f).
Proof.
  split; [apply job_as_frozen |]. split; [| apply seen_quiet].
  intros sched' Hseen.
  rewrite (job_as_frozen eng f sched'), (job_as_frozen eng f sched), Hseen.
  reflexivity.
Qed.

(** ** Terminal status and error capture *)

Lemma raised_by_cases (eng : Engine) (e : string) :
  cuda_is_available eng = Raise e \/
  set_num_threads eng 12 = Raise e \/
  (exists name device, load_model eng name device = Raise e) \/
  (exists m path lang fp16, transcribe eng m path lang fp16 = Raise e) \/
  (exists path, fs_open eng path = Raise e) \/
  (exists path text, fs_write eng path text = Raise e) ->
  raised_by eng e.
Proof. unfold raised_by, raised_after_device. tauto. Qed.

Lemma prefix_append (s t : string) : String.prefix s (s ++ t) = true.
Proof.
  induction s as [| a s IH]; simpl.
  - destruct t; reflexivity.
  - destruct (ascii_dec a a); [exact IH | congruence].
Qed.

Lemma terminal_done (path : string) :
  is_terminal ("Done. Transcript saved to: " ++ path) = true.
Proof. unfold is_terminal, is_done. rewrite prefix_append. reflexivity. Qed.

Lemma terminal_error (e : string) : is_terminal ("Error: " ++ e) = true.
Proof.
  unfold is_terminal, is_error. rewrite prefix_append. apply orb_true_r.
Qed.

(** The messages a run has added to the queue, once the run is evaluated. *)
Ltac queue_suffix :=
  cbn [after0 calls files]; rewrite <- ?app_assoc; reflexivity.

Ltac one_terminal :=
  cbn [List.filter]; rewrite ?terminal_done, ?terminal_error; reflexivity.

Ltac find_call := repeat first [left; reflexivity | right].

Ltac ends_done :=
  do 2 eexists;
  split; [reflexivity |];
  split; [find_call |];
  split; [cbn [files]; apply lookup_insert_eq |];
  do 4 eexists; split; [find_call | eassumption].

(** C5: whatever the collaborators do, [_do_transcription] returns
    normally, and the messages it has queued end with exactly one terminal
    status, decided by the run itself.  Every external call of the run but
    the last has returned.  When the last one raised [e], the terminal
    status is "Error: e".  When it returned, the terminal status is
    "Done. Transcript saved to: <path>", the run has written to that path
    the text its own transcribe call returned, and the file holds it.  The
    interactive thread, applying the queued messages in order, applies the
    terminal one last. *)
Theorem run_job_one_terminal_status
    (eng : Engine) (w : World) (g : GUI.WhisperGUI) :
  exists w' msgs new_calls g',
    _do_transcription eng w = (Ok tt, w') /\
    after0 w' = (after0 w ++ msgs)%list /\
    calls w' = (calls w ++ new_calls)%list /\
    Forall (fun m => is_terminal m = false) (List.removelast msgs) /\
    is_terminal (List.last msgs "") = true /\
    length (List.filter is_terminal msgs) = 1%nat /\
    new_calls <> [] /\
    Forall (fun c => answer eng c = Ok tt) (List.removelast new_calls) /\
    match answer eng (List.last new_calls cuda_is_available_call) with
    | Raise e => List.last msgs "" = "Error: " ++ e
    | Ok _ =>
        exists path text,
          List.last msgs "" = "Done. Transcript saved to: " ++ path /\
          In (write_call path text) new_calls /\
          files w' !! path = Some text /\
          exists m input lang fp16,
            In (transcribe_call m input lang 0%Q false fp16 true) new_calls /\
            transcribe eng m input lang fp16 = Ok text
    end /\
    GUI.run (map GUI.status_update msgs) g = Some g' /\
    GUI.status_var g' = List.last msgs "".
Proof.
  destruct w as [f sched q c fs]. run_worker.
  repeat branch; unit_values;
    (do 4 eexists;
     split; [reflexivity |];
     split; [queue_suffix |];
     split; [queue_suffix |];
     cbn [app List.removelast List.last];
     split; [repeat constructor |];
     split; [first [apply terminal_done | apply terminal_error] |];
     split; [one_terminal |];
     split; [discriminate |];
     split; [each_call; answers; reflexivity |];
     split; [answers; first [reflexivity | ends_done] |];
     split; reflexivity).
Qed.

(** ** Device resolution *)

Ltac in_cases H :=
  cbn [In app] in H;
  repeat (destruct H as [H | H];
          [cbv beta iota delta [String.append] in H;
           inversion H; subst; clear H |]);
  try contradiction.

(** All the calls of the run have returned: then none of them raised. *)
Ltac all_returned HF :=
  repeat match type of HF with
  | Forall _ (_ :: _) =>
      let H := fresh "Hret" in
      apply Forall_cons in HF as [H HF]; cbn [answer] in H
  end;
  repeat match goal with
  | Hq : ?x = Raise _, H : forget ?x = Ok tt |- _ =>
      rewrite Hq in H; discriminate H
  end.

Ltac same_model m :=
  match goal with
  | H : Raise _ = Ok m |- _ => discriminate H
  | H : Ok ?a = Ok m |- _ => injection H as <-
  | H : ?x = Ok m, H' : ?x = Raise _ |- _ => congruence
  | H : ?x = Ok m, H' : ?x = Ok ?a |- _ =>
      assert (a = m) by congruence; subst a
  end.

(** C7: when the device field reads "cuda" and CUDA is not available, the
    worker probes CUDA, queues "CUDA not available, using CPU." first and
    sets the thread count; once that has returned it queues the "Loading
    model" status and calls [load_model] for "cpu", and once the model is
    loaded it calls the engine on that model with fp16 off.  No model is
    loaded for another device and no transcription runs with fp16 on.  The
    downgrade is no error: the run returns normally, an "Error:" status
    can only come from a collaborator called after the device was
    resolved, and when every call of the run has returned the last status
    is the "Done" one. *)
Theorem cuda_unavailable_downgrades_to_cpu (eng : Engine) (w : World) :
  get device_var (apply_edits (hd [] (edits w)) (vars w)) = "cuda" ->
  cuda_is_available eng = Ok false ->
  let r := seen (vars w) (edits w) in
  exists w' msgs new_calls,
    _do_transcription eng w = (Ok tt, w') /\
    after0 w' =
      (after0 w ++ "CUDA not available, using CPU." :: msgs)%list /\
    calls w' = (calls w ++ new_calls)%list /\
    (exists later,
       new_calls =
         cuda_is_available_call :: set_num_threads_call 12 :: later) /\
    (set_num_threads eng 12 = Ok tt ->
     (exists rest, msgs = ("Loading model '" ++ f_model r ++ "' ...") :: rest) /\
     In (load_model_call (f_model r) "cpu") new_calls /\
     forall m, load_model eng (f_model r) "cpu" = Ok m ->
       In "Transcribing ..." msgs /\
       In (transcribe_call m (strip (f_input r))
             (if String.eqb (f_lang r) "Auto" then None else Some (f_lang r))
             0%Q false false true) new_calls) /\
    (forall name device,
       In (load_model_call name device) new_calls -> device = "cpu") /\
    (forall m path lang t wt fp16 wts,
       In (transcribe_call m path lang t wt fp16 wts) new_calls ->
       fp16 = false /\ exists name, load_model eng name "cpu" = Ok m) /\
    (forall e, In ("Error: " ++ e) msgs -> raised_after_device eng e) /\
    (Forall (fun c => answer eng c = Ok tt) new_calls ->
     List.last msgs "" =
       "Done. Transcript saved to: " ++ strip (f_output r)).
Proof.
  destruct w as [f sched q c fs]. cbn [get edits vars]. intros Hdev Hcuda.
  cbv zeta. run_worker. rewrite Hdev, Hcuda.
  change (String.eqb "cuda" "cuda") with true. run_worker.
  change (String.eqb "cpu" "cuda") with false.
  repeat branch; unit_values;
    (eexists; eexists; eexists;
     split; [reflexivity |];
     split; [queue_suffix |];
     split; [queue_suffix |];
     cbn [app List.last];
     split; [eexists; reflexivity |];
     split; [intros Hset; try discriminate Hset;
             (split; [eexists; reflexivity |]);
             (split; [find_call |]);
             intros m Hload; same_model m;
             (split; find_call) |];
     split; [intros name device H; in_cases H; reflexivity |];
     split; [intros m path lang t wt fp16 wts H; in_cases H;
             (split; [reflexivity | eauto]) |];
     split; [intros msg H; in_cases H; unfold raised_after_device; eauto 12 |];
     intros HF; first [reflexivity | exfalso; all_returned HF]).
Qed.

Lemma cuda_unavailable_downgrades_to_cpu_witness :
  exists w' msgs new_calls,
    _do_transcription eng_cpu (mkWorld talk_form [] [] [] ∅) = (Ok tt, w') /\
    after0 w' = "CUDA not available, using CPU." :: msgs /\
    calls w' = new_calls /\
    (exists later,
       new_calls =
         cuda_is_available_call :: set_num_threads_call 12 :: later) /\
    (set_num_threads eng_cpu 12 = Ok tt ->
     (exists rest, msgs = "Loading model 'large' ..." :: rest) /\
     In (load_model_call "large" "cpu") new_calls /\
     forall m, load_model eng_cpu "large" "cpu" = Ok m ->
       In "Transcribing ..." msgs /\
       In (transcribe_call m "talk.mp4" (Some "German")
             0%Q false false true) new_calls) /\
    (forall name device,
       In (load_model_call name device) new_calls -> device = "cpu") /\
    (forall m path lang t wt fp16 wts,
       In (transcribe_call m path lang t wt fp16 wts) new_calls ->
       fp16 = false /\ exists name, load_model eng_cpu name "cpu" = Ok m) /\
    (forall e, In ("Error: " ++ e) msgs -> raised_after_device eng_cpu e) /\
    (Forall (fun c => answer eng_cpu c = Ok tt) new_calls ->
     List.last msgs "" = "Done. Transcript saved to: transcript_output.txt").
Proof.
  apply (cuda_unavailable_downgrades_to_cpu
           eng_cpu (mkWorld talk_form [] [] [] ∅));
    reflexivity.
Defined.

(* ------------------------------------------------------------------ *)
(** ** The output sink *)

Ltac run_job := unfold job; run_worker.

(** X10: a job changes the file system at one path only, the stripped
    output entry as the worker reads it, and only once [open] has succeeded
    there, which it attempts only after the engine has returned a text.
    The file then holds that text, or is left empty when the write
    raises. *)
Theorem job_touches_only_output_path
    (eng : Engine) (f : Form) (sched : list (list Edit))
    (fs : gmap string string) :
  let out := strip (f_output (seen f sched)) in
  let w' := snd (job eng f sched fs) in
  (forall p, p <> out -> files w' !! p = fs !! p) /\
  (forall path mode enc, In (open_call path mode enc) (calls w') ->
     path = out /\ mode = "w" /\ enc = "utf-8" /\
     exists m input lang fp16 text,
       transcribe eng m input lang fp16 = Ok text) /\
  (files w' = fs \/
   (fs_open eng out = Ok tt /\ In (open_call out "w" "utf-8") (calls w') /\
    ((files w' = <[out := ""]> fs /\
      exists text e, fs_write eng out text = Raise e) \/
     (exists m input lang fp16 text,
        transcribe eng m input lang fp16 = Ok text /\
        fs_write eng out text = Ok tt /\
        files w' = <[out := text]> fs)))).
Proof.
  cbv zeta. run_job.
  repeat branch; unit_values; try discriminate; cbn [app].
  all: split; [intros p Hp; rewrite ?lookup_insert_ne by congruence;
               reflexivity |].
  all: split; [intros path mode enc H; in_cases H; eauto 10 |].
  all: first [left; reflexivity | right].
  all: split; [first [assumption | reflexivity] |].
  all: split; [cbn [In]; tauto |].
  all: first [left; split; [rewrite ?insert_insert_eq; reflexivity | eauto]
             | right; do 5 eexists;
               split; [eassumption |]; split; [eassumption |];
               rewrite ?insert_insert_eq; reflexivity].
Qed.

(* ------------------------------------------------------------------ *)
(** ** The calls of a job *)

(** The comparisons the worker has made, as propositions. *)
Ltac string_facts :=
  repeat match goal with
  | H : String.eqb ?a ?b = true |- _ =>
      lazymatch goal with
      | _ : a = b |- _ => fail
      | _ => pose proof (proj1 (String.eqb_eq a b) H)
      end
  | H : String.eqb ?a ?b = false |- _ =>
      lazymatch goal with
      | _ : a <> b |- _ => fail
      | _ => pose proof (proj1 (String.eqb_neq a b) H)
      end
  end.

(** X11: every call a job makes takes its arguments from the form as the
    worker reads it.  CUDA is probed only when the device entry reads
    "cuda"; the model is loaded under the name in the model entry, for
    "cpu" when CUDA was requested and is unavailable and for the device
    entry as it stands otherwise; the engine gets the stripped input entry,
    no language for "Auto" and the language entry otherwise, temperature
    0, timestamps kept, word timestamps on, and fp16 exactly when the model
    was loaded for "cuda". *)
Theorem job_call_arguments
    (eng : Engine) (f : Form) (sched : list (list Edit))
    (fs : gmap string string) :
  let r := seen f sched in
  let w' := snd (job eng f sched fs) in
  Forall
    (fun c =>
       match c with
       | cuda_is_available_call => f_device r = "cuda"
       | set_num_threads_call n => n = 12
       | load_model_call name device =>
           name = f_model r /\
           (f_device r = "cuda" -> cuda_is_available eng = Ok false ->
            device = "cpu") /\
           (f_device r <> "cuda" \/ cuda_is_available eng = Ok true ->
            device = f_device r)
       | transcribe_call m path lang t wt fp16 wts =>
           path = strip (f_input r) /\
           lang = (if String.eqb (f_lang r) "Auto" then None
                   else Some (f_lang r)) /\
           t = 0%Q /\ wt = false /\ wts = true /\
           exists device,
             load_model eng (f_model r) device = Ok m /\
             fp16 = String.eqb device "cuda" /\
             In (load_model_call (f_model r) device) (calls w')
       | open_call path mode enc =>
           path = strip (f_output r) /\ mode = "w" /\ enc = "utf-8"
       | write_call path text => path = strip (f_output r)
       end)
    (calls w').
Proof.
  cbv zeta. run_job.
  repeat branch; unit_values; try discriminate; cbn [app]; string_facts;
    try discriminate; each_call.
  all: try reflexivity; try assumption.
  all: try (repeat split; reflexivity).
  all: try (split; [reflexivity |];
            split; [intros; first [reflexivity | congruence]
                   | intros [? | ?]; first [reflexivity | congruence]]).
  all: repeat (split; [reflexivity |]);
       eexists; (split; [eassumption |]);
       (split; [first [reflexivity | congruence] |]);
       cbn [In]; tauto.
Qed.

(** X12: a job stops at the first collaborator that raises.  Every call in
    its log but the last has returned normally; when the last call raised
    [e] the job's last status is "Error: e", and when it returned the last
    status is the "Done" one. *)
Theorem job_stops_at_first_failure
    (eng : Engine) (f : Form) (sched : list (list Edit))
    (fs : gmap string string) :
  let w' := snd (job eng f sched fs) in
  calls w' <> [] /\
  Forall (fun c => answer eng c = Ok tt) (List.removelast (calls w')) /\
  match answer eng (List.last (calls w') cuda_is_available_call) with
  | Ok _ =>
      List.last (after0 w') "" =
        "Done. Transcript saved to: " ++ strip (f_output (seen f sched))
  | Raise e => List.last (after0 w') "" = "Error: " ++ e
  end.
Proof.
  cbv zeta. run_job.
  repeat branch; unit_values; cbn [app List.removelast List.last].
  all: split; [discriminate |].
  all: split; [each_call; answers; reflexivity |].
  all: answers; reflexivity.
Qed.

(** X13: when every call the job makes returns, the job queues, after the
    downgrade notice if there is one, exactly the "Loading model",
    "Transcribing" and "Done" statuses, and leaves the text its transcribe
    call returned at the stripped output entry, everything else on disk
    being as before. *)
Theorem job_succeeds_when_nothing_raises
    (eng : Engine) (f : Form) (sched : list (list Edit))
    (fs : gmap string string) :
  Forall (fun c => answer eng c = Ok tt) (calls (snd (job eng f sched fs))) ->
  let r := seen f sched in
  let w' := snd (job eng f sched fs) in
  exists notice m lang fp16 text,
    (notice = [] \/ notice = ["CUDA not available, using CPU."]) /\
    after0 w' =
      app notice
        ["Loading model '" ++ f_model r ++ "' ...";
         "Transcribing ...";
         "Done. Transcript saved to: " ++ strip (f_output r)] /\
    In (transcribe_call m (strip (f_input r)) lang 0%Q false fp16 true)
       (calls w') /\
    transcribe eng m (strip (f_input r)) lang fp16 = Ok text /\
    In (write_call (strip (f_output r)) text) (calls w') /\
    files w' = <[strip (f_output r) := text]> fs.
Proof.
  cbv zeta. run_job.
  repeat branch; unit_values; cbn [app]; intros HF;
    try (exfalso; all_returned HF; fail).
  all: first
    [ exists []; do 4 eexists;
      (split; [tauto |]); (split; [reflexivity |]);
      (split; [find_call |]); (split; [eassumption |]);
      (split; [find_call |]);
      rewrite insert_insert_eq; reflexivity
    | exists ["CUDA not available, using CPU."]; do 4 eexists;
      (split; [tauto |]); (split; [reflexivity |]);
      (split; [find_call |]); (split; [eassumption |]);
      (split; [find_call |]);
      rewrite insert_insert_eq; reflexivity ].
Qed.

Lemma job_succeeds_when_nothing_raises_witness :
  exists notice m lang fp16 text,
    (notice = [] \/ notice = ["CUDA not available, using CPU."]) /\
    after0 (snd (job eng_cpu talk_form late_edits ∅)) =
      app notice
        ["Loading model '" ++ f_model (seen talk_form late_edits) ++ "' ...";
         "Transcribing ...";
         "Done. Transcript saved to: "
           ++ strip (f_output (seen talk_form late_edits))] /\
    In (transcribe_call m (strip (f_input (seen talk_form late_edits))) lang
          0%Q false fp16 true)
       (calls (snd (job eng_cpu talk_form late_edits ∅))) /\
    transcribe eng_cpu m (strip (f_input (seen talk_form late_edits))) lang
      fp16 = Ok text /\
    In (write_call (strip (f_output (seen talk_form late_edits))) text)
       (calls (snd (job eng_cpu talk_form late_edits ∅))) /\
    files (snd (job eng_cpu talk_form late_edits ∅)) =
      <[strip (f_output (seen talk_form late_edits)) := text]> ∅.
Proof.
  apply (job_succeeds_when_nothing_raises eng_cpu talk_form late_edits ∅).
  vm_compute. repeat constructor.
Defined.

(* ------------------------------------------------------------------ *)
(** ** Start and worker together *)

Lemma quiet_job (eng : Engine) (f : Form) (n : nat)
    (fs : gmap string string) :
  calls (snd (job eng f (repeat [] n) fs)) = calls (snd (job eng f [] fs)).
Proof.
  unfold job.
  pose proof (job_as_frozen eng f (repeat [] n) [] [] fs) as H.
  rewrite seen_quiet in H. unfold outcome in H.
  injection H as _ _ H _. exact H.
Qed.

Lemma started_valid (env : GUI.Probes) (g : GUI.WhisperGUI) :
  GUI.threads_started (GUI.start_transcription env g)
    = S (GUI.threads_started g) ->
  strip (f_input (GUI.form g)) <> "" /\
  GUI.path_exists env (strip (f_input (GUI.form g))) = true.
Proof.
  unfold GUI.start_transcription.
  destruct (String.eqb (strip (f_input (GUI.form g))) "") eqn:Hempty;
    [cbn; lia |].
  destruct (GUI.path_exists env (strip (f_input (GUI.form g)))) eqn:Hex;
    [| cbn; lia].
  intros _. split; [apply String.eqb_neq, Hempty | reflexivity].
Qed.

(** X14: when Start has started a job and no entry is edited while it
    runs, the path the engine is asked to transcribe is the stripped input
    entry that Start has checked: it is not empty and it existed at the
    click. *)
Theorem engine_gets_the_validated_path
    (env : GUI.Probes) (g : GUI.WhisperGUI) (eng : Engine) (n : nat)
    (fs : gmap string string) :
  GUI.threads_started (GUI.start_transcription env g)
    = S (GUI.threads_started g) ->
  Forall
    (fun c =>
       match c with
       | transcribe_call _ path _ _ _ _ _ =>
           path = strip (f_input (GUI.form g)) /\ path <> "" /\
           GUI.path_exists env path = true
       | _ => True
       end)
    (calls (snd (job eng (GUI.form (GUI.start_transcription env g))
                   (repeat [] n) fs))).
Proof.
  intros Hstarted. destruct (started_valid env g Hstarted) as [Hne Hex].
  rewrite start_keeps_form, quiet_job. run_job.
  repeat branch; unit_values; cbn [app]; each_call;
    first [exact I | split; [reflexivity | split; assumption]].
Qed.

Lemma engine_gets_the_validated_path_witness :
  Forall
    (fun c =>
       match c with
       | transcribe_call _ path _ _ _ _ _ =>
           path = strip (f_input (GUI.form GUI.g_ready)) /\ path <> "" /\
           GUI.path_exists GUI.env30 path = true
       | _ => True
       end)
    (calls (snd (job eng_cpu
                   (GUI.form (GUI.start_transcription GUI.env30 GUI.g_ready))
                   (repeat [] 5) ∅))).
Proof.
  apply (engine_gets_the_validated_path GUI.env30 GUI.g_ready eng_cpu 5 ∅).
  reflexivity.
Defined.

End Job.

(* ================================================================== *)
(** * Properties of the start-up code *)

Section StartupFacts.

Import Startup.

(** X15: the start-up code touches at most the PATH variable.  Without
    the ffmpeg directory the environment is left as it is; with it and
    with PATH set, PATH keeps its old value as a prefix (directories
    already on the path keep precedence) and gains the separator and the
    ffmpeg directory at its end, no other variable changing; with it and
    without PATH, the program stops with a KeyError. *)
Theorem configure_ffmpeg_extends_path
    (isdir : string -> bool) (pathsep : string)
    (environ : gmap string string) :
  (isdir FFMPEG_DIR = false ->
   configure_ffmpeg isdir pathsep environ = Ok environ) /\
  (isdir FFMPEG_DIR = true -> environ !! "PATH" = None ->
   exists e, configure_ffmpeg isdir pathsep environ = Raise e) /\
  (forall path,
     isdir FFMPEG_DIR = true -> environ !! "PATH" = Some path ->
     exists environ',
       configure_ffmpeg isdir pathsep environ = Ok environ' /\
       environ' !! "PATH" = Some (path ++ pathsep ++ "C:\ffmpeg\bin") /\
       String.prefix path (path ++ pathsep ++ "C:\ffmpeg\bin") = true /\
       (forall k, k <> "PATH" -> environ' !! k = environ !! k) /\
       dom environ' = dom environ).
Proof.
  unfold configure_ffmpeg. split; [| split].
  - intros ->. reflexivity.
  - intros -> ->. eauto.
  - intros path -> Hpath. rewrite Hpath. eexists. split; [reflexivity |].
    split; [apply lookup_insert_eq |].
    split; [apply prefix_append |].
    split.
    + intros k Hk. apply lookup_insert_ne. congruence.
    + apply set_eq. intros k. rewrite dom_insert, elem_of_union,
        elem_of_singleton.
      split; [intros [-> | H]; [| exact H] | tauto].
      apply elem_of_dom. eauto.
Qed.

End StartupFacts.

(* ================================================================== *)
(** * Scenarios *)

Section Scenarios.

Import Worker GUI.

Example strip_examples :
  strip "  talk.mp4 " = "talk.mp4" /\ strip "   " = "" /\ strip "" = "" /\
  strip "a b" = "a b".
Proof. repeat split. Qed.

(** A 30 s recording: the estimate is 36 s, and after 90 ticks (18 000 ms)
    the bar stands at 50 with 18 s announced. *)
Example scenario_half_way :
  exists g,
    run (user_edit input_var "talk.mp4" :: click_start env30
           :: repeat timer_tick 90) init = Some g /\
    (estimated_seconds g == 36)%Q /\ elapsed_ms g = 18000 /\
    (progress g == 50)%Q /\
    status_var g = "Running ... estimated ~18 s remaining".
Proof. eexists. split; [vm_compute; reflexivity |]. repeat split. Qed.

(** Long past the estimate the bar waits at 98 with 0 s announced; the
    first tick after the worker's exit sets it to 100 and is the last. *)
Example scenario_overrun :
  exists g g',
    run (user_edit input_var "talk.mp4" :: click_start env30
           :: repeat timer_tick 200) init = Some g /\
    progress g = 98%Q /\
    status_var g = "Running ... estimated ~0 s remaining" /\
    run [worker_exit; timer_tick] g = Some g' /\
    progress g' = 100%Q /\ ticks_scheduled g' = 0%nat.
Proof.
  eexists. eexists. split; [vm_compute; reflexivity |].
  split; [reflexivity |]. split; [reflexivity |].
  split; [vm_compute; reflexivity |]. split; reflexivity.
Qed.

(** The engine raises in the middle of the transcription: the last status
    is the error, and nothing is written. *)
Example scenario_engine_fault :
  let r := _do_transcription eng_engine_fault
             (mkWorld talk_form [] [] [] ∅) in
  fst r = Ok tt /\
  after0 (snd r) =
    ["Loading model 'large' ..."; "Transcribing ...";
     "Error: out of memory"] /\
  files (snd r) = ∅.
Proof. cbv zeta. repeat split. Qed.

(** The constants of the estimate in IEEE binary64, the arithmetic of
    Python's [float]: 60 * 1.2 is exactly 72.0 and 30 * 1.2 exactly 36.0,
    as in the rational model.  The literal is the double nearest to 1.2. *)
Example estimate_constants_binary64 :
  PrimFloat.eqb (PrimFloat.mul 60 0x1.3333333333333p+0) 72 = true /\
  PrimFloat.eqb (PrimFloat.mul 30 0x1.3333333333333p+0) 36 = true.
Proof. split; vm_compute; reflexivity. Qed.

End Scenarios.
